(** * Stock-market simulation: price generator and portfolio ledger

    A shallow embedding of [personal_project.py]: the [Portfolio] class
    (buy_stock, sell_stock, summary), the price generator
    [generate_realistic_stock_data], the day lookup [simulate_prices] and the
    lookup the game loop performs each frame.

    Modelling choices.
    - Numbers.  Share quantities are Python [int]s, that is [Z].  Cash and
      prices are modelled twice.  In the first ledger, the generator and
      the game loop they are exact rationals ([Qc], canonical fractions, so
      equal numbers are equal terms), Python [int]s embedding exactly
      through [of_int]: this is what the program computes on [int]s, and on
      floats it leaves rounding, absorption, infinities and NaN out, so
      only statements that do not depend on them are made there.  In
      module [Py] a number is an [int] or a binary64 float ([SpecFloat]),
      with Python's conversions, comparisons and [OverflowError]: the
      statements about cash and about the text of the summary are made on
      that ledger.  The two ledgers agree on [int]s ([buy_stock_on_ints],
      [sell_stock_on_ints]).
    - [self.stocks] is a Python [dict]: an association list in insertion
      order with unique keys, because [summary] iterates over it in order.
    - Methods that mutate [self] and return a message become functions
      returning the message together with the new portfolio.
    - The two process-wide random generators ([random] and [numpy.random])
      are an explicit state threaded through the generator; exceptions
      raised by pandas are an explicit outcome. *)

From Stdlib Require Import ZArith QArith Qcanon String Ascii List Lia Lqa.
From Stdlib Require Import DecimalString DecimalPos DecimalZ SpecFloat.
Import ListNotations.

Open Scope string_scope.
Open Scope Z_scope.

(** ** Numbers *)

(** A Python [int] used where a price or an amount of cash is expected. *)
Definition of_int (z : Z) : Qc := Q2Qc (inject_Z z).

(** [x <= y] on numbers, as a boolean. *)
Definition num_leb (x y : Qc) : bool := Qle_bool x y.

(** Python's two-argument [max(a, b)]: [b] when [b > a], else [a]. *)
Definition py_max (a b : Qc) : Qc := if num_leb b a then a else b.

(** ** Rendering of f-string fields *)

(** [f"{n}"] for an [int]. *)
Definition str_int (z : Z) : string := NilZero.string_of_int (Z.to_int z).

(** Nearest integer to [a / b] for [0 <= a] and [0 < b], ties to even. *)
Definition round_half_even (a b : Z) : Z :=
  let fl := a / b in
  let r := a mod b in
  if 2 * r <? b then fl
  else if b <? 2 * r then fl + 1
  else if Z.even fl then fl else fl + 1.

(** Two decimal digits of a number below one hundred. *)
Definition two_digits (n : Z) : string :=
  if n <? 10 then "0" ++ str_int n else str_int n.

(** [f"{x:.2f}"] for a float given by its exact value: sign, integer part,
    point, two decimals, the value being rounded to the nearest hundredth
    (ties to even).  An [int] is first converted to a float by Python, so
    this is its text only for the [int]s a float holds exactly; see
    [Py.format_2f]. *)
Definition format_2f (x : Qc) : string :=
  let a := Qnum x in
  let b := Zpos (Qden x) in
  let n := round_half_even (Z.abs a * 100) b in
  (if a <? 0 then "-" else "") ++ str_int (n / 100) ++ "." ++ two_digits (n mod 100).

(** [sep.join(items)]. *)
Fixpoint join (sep : string) (items : list string) : string :=
  match items with
  | [] => ""
  | [x] => x
  | x :: rest => x ++ sep ++ join sep rest
  end.

(** Truth value of a [str]: the empty string is false. *)
Definition str_truthy (s : string) : bool :=
  match s with EmptyString => false | String _ _ => true end.


(** ** Python dictionaries from ticker to share count *)

Definition dict := list (string * Z).

(** [d[k]] when present. *)
Fixpoint dict_lookup (d : dict) (k : string) : option Z :=
  match d with
  | [] => None
  | (k', v) :: rest => if String.eqb k' k then Some v else dict_lookup rest k
  end.

(** [k in d]. *)
Definition dict_contains (d : dict) (k : string) : bool :=
  match dict_lookup d k with Some _ => true | None => false end.

(** [d.get(k, default)]. *)
Definition dict_get (d : dict) (k : string) (default : Z) : Z :=
  match dict_lookup d k with Some v => v | None => default end.

(** [d[k]], read only where [k in d] has been tested. *)
Definition dict_item (d : dict) (k : string) : Z := dict_get d k 0.

(** [d[k] = v]: the value is replaced where the key stands, a new key goes
    to the end. *)
Fixpoint dict_set (d : dict) (k : string) (v : Z) : dict :=
  match d with
  | [] => [(k, v)]
  | (k', v') :: rest =>
      if String.eqb k' k then (k', v) :: rest else (k', v') :: dict_set rest k v
  end.

(** ** The Portfolio class *)

(** The second component of a history tuple, ["Buy"] or ["Sell"]. *)
Inductive side := Buy | Sell.

(** A history tuple [(ticker, side, quantity, price)]. *)
Definition transaction : Type := string * side * Z * Qc.

Record Portfolio := mkPortfolio {
  balance : Qc;
  stocks : dict;
  transaction_history : list transaction
}.

(** [Portfolio(initial_balance)]. *)
Definition Portfolio_init (initial_balance : Qc) : Portfolio :=
  {| balance := initial_balance; stocks := []; transaction_history := [] |}.

(** The two failure messages; the spec calls them InsufficientFunds and
    InsufficientShares. *)
Definition InsufficientFunds : string :=
  "Not enough balance to complete the transaction.".
Definition InsufficientShares : string := "Not enough shares to sell.".

(** The two methods on exact numbers: what the code computes on [int]
    cash and prices.  On floats the product, the difference and the sum are
    rounded; that ledger is [Py.buy_stock] and [Py.sell_stock]. *)
Definition buy_stock (self : Portfolio) (ticker : string) (price : Qc)
    (quantity : Z) : string * Portfolio :=
  let total_cost := (price * of_int quantity)%Qc in
  if num_leb total_cost (balance self) then
    ("Bought " ++ str_int quantity ++ " shares of " ++ ticker ++ " at $"
       ++ format_2f price,
     {| balance := (balance self - total_cost)%Qc;
        stocks := dict_set (stocks self) ticker
                    (dict_get (stocks self) ticker 0 + quantity);
        transaction_history :=
          transaction_history self ++ [(ticker, Buy, quantity, price)] |})
  else (InsufficientFunds, self).

Definition sell_stock (self : Portfolio) (ticker : string) (price : Qc)
    (quantity : Z) : string * Portfolio :=
  if dict_contains (stocks self) ticker
     && (quantity <=? dict_item (stocks self) ticker) then
    ("Sold " ++ str_int quantity ++ " shares of " ++ ticker ++ " at $"
       ++ format_2f price,
     {| balance := (balance self + price * of_int quantity)%Qc;
        stocks := dict_set (stocks self) ticker
                    (dict_item (stocks self) ticker - quantity);
        transaction_history :=
          transaction_history self ++ [(ticker, Sell, quantity, price)] |})
  else (InsufficientShares, self).

(** One entry of the summary, [f"{ticker}: {qty} shares"]. *)
Definition summary_item (kv : string * Z) : string :=
  fst kv ++ ": " ++ str_int (snd kv) ++ " shares".

Definition stock_summary (self : Portfolio) : string :=
  join ", " (map summary_item (filter (fun kv => 0 <? snd kv) (stocks self))).

Definition summary (self : Portfolio) : string :=
  "Balance: $" ++ format_2f (balance self) ++ " | "
    ++ (if str_truthy (stock_summary self) then stock_summary self
        else "No stocks owned").

(** ** Exceptions and the random generators *)

(** The exceptions pandas and numpy raise on the paths modelled here. *)
Inductive exn := ValueError | IndexError | OverflowError.

Inductive outcome (A : Type) :=
| Ok (a : A)
| Raise (e : exn).
Arguments Ok {A} a.
Arguments Raise {A} e.

(** The state of the two process-wide generators: what [random.random()]
    will return from now on (numbers of [[0, 1)]), what numpy's standard
    normal will return from now on, and how many draws each has served.
    Seeding a generator fixes its sequence and resets its position. *)
Record RNG := mkRNG {
  random_draws : nat -> Qc;
  random_pos : nat;
  normal_draws : nat -> Qc;
  normal_pos : nat
}.

(** Computations that read the generators and may raise. *)
Definition M (A : Type) : Type := RNG -> outcome A * RNG.

Definition ret {A} (a : A) : M A := fun s => (Ok a, s).

Definition bind {A B} (m : M A) (k : A -> M B) : M B :=
  fun s => match m s with
           | (Ok a, s') => k a s'
           | (Raise e, s') => (Raise e, s')
           end.

Definition lift {A} (o : outcome A) : M A := fun s => (o, s).

Notation "x <- m ;; k" := (bind m (fun x => k))
  (at level 61, m at next level, right associativity).

(** [random.random()]. *)
Definition random_random : M Qc :=
  fun s => (Ok (random_draws s (random_pos s)),
            {| random_draws := random_draws s; random_pos := S (random_pos s);
               normal_draws := normal_draws s; normal_pos := normal_pos s |}).

(** [random.uniform(a, b)], which is [a + (b - a) * random()], here
    without the rounding of the float sum: the float result can be [b]
    itself, the exact one stays below it. *)
Definition random_uniform (a b : Qc) : M Qc :=
  u <- random_random ;; ret (a + (b - a) * u)%Qc.

(** [np.random.normal(loc, scale)], which is [loc + scale * z] for a
    standard normal draw [z]. *)
Definition np_random_normal (loc scale : Qc) : M Qc :=
  fun s => (Ok (loc + scale * normal_draws s (normal_pos s))%Qc,
            {| random_draws := random_draws s; random_pos := random_pos s;
               normal_draws := normal_draws s; normal_pos := S (normal_pos s) |}).

(** ** Data frames *)

(** A row of the generated table; [Date] counts days from 2023-01-01. *)
Record Row := mkRow { Date : nat; Price : Qc; Ticker : string }.

Definition DataFrame := list Row.

(** [pd.date_range('2023-01-01', periods=p, freq='D')]: [p] consecutive
    days, none when [p] is zero.  A negative [p] makes the call raise; with
    pandas 3 on numpy 2 the exception is the [OverflowError] of an unsigned
    conversion inside pandas. *)
Definition pd_date_range (periods : Z) : outcome (list nat) :=
  if periods <? 0 then Raise OverflowError
  else Ok (seq 0 (Z.to_nat periods)).

(** [pd.DataFrame({"Date": dates, "Price": prices, "Ticker": ticker})] with
    a scalar ticker: columns of different lengths are refused. *)
Definition pd_DataFrame (dates : list nat) (prices : list Qc)
    (ticker : string) : outcome DataFrame :=
  if Nat.eqb (length dates) (length prices) then
    Ok (map (fun dp => mkRow (fst dp) (snd dp) ticker) (combine dates prices))
  else Raise ValueError.

(** [pd.concat(frames, ignore_index=True)]: nothing to concatenate is
    refused. *)
Definition pd_concat (frames : list DataFrame) : outcome DataFrame :=
  match frames with
  | [] => Raise ValueError
  | _ => Ok (concat frames)
  end.

(** [values.unique()]: the distinct values in order of first appearance;
    [seen] holds the values met so far. *)
Fixpoint unique_from (seen l : list nat) : list nat :=
  match l with
  | [] => []
  | x :: rest =>
      if existsb (Nat.eqb x) seen then unique_from seen rest
      else x :: unique_from (x :: seen) rest
  end.

Definition unique (l : list nat) : list nat := unique_from [] l.

(** [arr[i]] for an integer [i]: negative indices count from the end, an
    index outside the array raises. *)
Definition np_index (arr : list nat) (i : Z) : outcome nat :=
  let len := Z.of_nat (length arr) in
  if (0 <=? i) && (i <? len) then Ok (nth (Z.to_nat i) arr O)
  else if (- len <=? i) && (i <? 0) then Ok (nth (Z.to_nat (len + i)) arr O)
  else Raise IndexError.

(** ** The price generator *)

Definition drift : Qc := Q2Qc (5 # 10000).
Definition volatility : Qc := Q2Qc (2 # 100).

(** The body of [for _ in range(1, num_days)], run [n] times. *)
Fixpoint price_walk (n : nat) (prices : list Qc) : M (list Qc) :=
  match n with
  | O => ret prices
  | S n' =>
      shock <- np_random_normal drift volatility ;;
      let new_price := (last prices (of_int 0) * (of_int 1 + shock))%Qc in
      let new_price := py_max new_price (of_int 1) in
      price_walk n' (prices ++ [new_price])
  end.

(** [f"Stock {i+1}"]. *)
Definition ticker_name (i : Z) : string := "Stock " ++ str_int (i + 1).

(** One pass of the body of [for i in range(num_stocks)]. *)
Definition stock_frame (num_days : Z) (i : Z) : M DataFrame :=
  dates <- lift (pd_date_range num_days) ;;
  initial_price <- random_uniform (of_int 50) (of_int 150) ;;
  prices <- price_walk (Z.to_nat (num_days - 1)) [initial_price] ;;
  lift (pd_DataFrame dates prices (ticker_name i)).

(** The loop [for i in range(num_stocks)], with [count] passes left. *)
Fixpoint stock_loop (num_days : Z) (count : nat) (i : Z)
    (stocks : list DataFrame) : M (list DataFrame) :=
  match count with
  | O => ret stocks
  | S count' =>
      stock_data <- stock_frame num_days i ;;
      stock_loop num_days count' (i + 1) (stocks ++ [stock_data])
  end.

Definition generate_realistic_stock_data (num_stocks num_days : Z)
    : M DataFrame :=
  stocks <- stock_loop num_days (Z.to_nat num_stocks) 0 [] ;;
  lift (pd_concat stocks).

(** ** Looking up a day *)

Definition simulate_prices (stock_data : DataFrame) (current_day : Z)
    : outcome DataFrame :=
  match np_index (unique (map Date stock_data)) current_day with
  | Ok day => Ok (filter (fun r => Nat.eqb (Date r) day) stock_data)
  | Raise e => Raise e
  end.

(** The lookup of the game loop,
    [stock_today = simulate_prices(stock_data, current_day % 100)]. *)
Definition stock_today (stock_data : DataFrame) (current_day : Z)
    : outcome DataFrame :=
  simulate_prices stock_data (current_day mod 100).

(** The prices of one ticker, in row order. *)
Definition prices_of (df : DataFrame) (ticker : string) : list Qc :=
  map Price (filter (fun r => String.eqb (Ticker r) ticker) df).

(** A generator state for examples: [random()] always returns 1/2, the
    normal draws are a constant [z]. *)
Definition const_rng (z : Qc) : RNG :=
  {| random_draws := fun _ => Q2Qc (1 # 2); random_pos := 0;
     normal_draws := fun _ => z; normal_pos := 0 |}.

(** The invariants the data model asks of a portfolio: cash is not
    negative and no share count is negative. *)
Definition Portfolio_inv (p : Portfolio) : Prop :=
  (0 <= balance p)%Qc /\ Forall (fun kv => 0 <= snd kv) (stocks p).

(** [holdings[ticker]], read as the ledger reads it in [buy_stock]. *)
Definition holdings (p : Portfolio) (ticker : string) : Z :=
  dict_get (stocks p) ticker 0.


(** ** Conditions on the generator state *)

(** Every draw of [random.random()] lies in [[0, 1)]. *)
Definition rng_ok (s : RNG) : Prop :=
  forall k, (0 <= random_draws s k)%Qc /\ (random_draws s k < 1)%Qc.



(** The frame of one ticker: one row per day, in day order. *)
Definition frame_of (ticker : string) (prices : list Qc) : DataFrame :=
  map (fun dp => mkRow (fst dp) (snd dp) ticker)
      (combine (seq 0 (length prices)) prices).

(** The values of [i] in the passes of a loop with [count] passes left. *)
Fixpoint range_from (i : Z) (count : nat) : list Z :=
  match count with
  | O => []
  | S count' => i :: range_from (i + 1) count'
  end.

(** What the generator builds for ticker number [i]: one row per day for
    [num_days] days; [floored] is the condition under which its prices are
    known to be at least 1. *)
Definition generated_frame (num_days : Z) (floored : Prop) (i : Z)
    (f : DataFrame) : Prop :=
  exists prices,
    f = frame_of (ticker_name i) prices /\
    length prices = Z.to_nat num_days /\
    (floored -> Forall (fun x => (of_int 1 <= x)%Qc) prices).

(** ** Sequences of calls and the reading of the history *)

(** One call of a trading method with its arguments. *)
Inductive order :=
| BuyOrder (ticker : string) (price : Qc) (quantity : Z)
| SellOrder (ticker : string) (price : Qc) (quantity : Z).

Definition place_order (p : Portfolio) (o : order) : string * Portfolio :=
  match o with
  | BuyOrder ticker price quantity => buy_stock p ticker price quantity
  | SellOrder ticker price quantity => sell_stock p ticker price quantity
  end.

(** The portfolio after the calls of [os], made one after the other. *)
Fixpoint place_orders (p : Portfolio) (os : list order) : Portfolio :=
  match os with
  | [] => p
  | o :: rest => place_orders (snd (place_order p o)) rest
  end.

(** ** The game loop *)

(** [values.unique()] for a column of strings: the distinct values in order
    of first appearance; [seen] holds the values met so far. *)
Fixpoint unique_str_from (seen l : list string) : list string :=
  match l with
  | [] => []
  | x :: rest =>
      if existsb (String.eqb x) seen then unique_str_from seen rest
      else x :: unique_str_from (x :: seen) rest
  end.

Definition unique_str (l : list string) : list string := unique_str_from [] l.

(** [arr[i]] for an array of strings and an integer [i]. *)
Definition np_index_str (arr : list string) (i : Z) : outcome string :=
  let len := Z.of_nat (length arr) in
  if (0 <=? i) && (i <? len) then Ok (nth (Z.to_nat i) arr "")
  else if (- len <=? i) && (i <? 0) then Ok (nth (Z.to_nat (len + i)) arr "")
  else Raise IndexError.

(** [stock_today[stock_today['Ticker'] == ticker]['Price'].iloc[0]]: the
    price in the first row of the ticker; no such row is an index error. *)
Definition price_today (stock_today : DataFrame) (ticker : string)
    : outcome Qc :=
  match filter (fun r => String.eqb (Ticker r) ticker) stock_today with
  | [] => Raise IndexError
  | r :: _ => Ok (Price r)
  end.

(** What can stop the loop: an exception of the table lookups, or the
    division by zero of [% len(stock_tickers)]. *)
Inductive loop_exn := Lookup (e : exn) | ZeroDivisionError.

Inductive attempt (A : Type) :=
| Done (a : A)
| Crash (e : loop_exn).
Arguments Done {A} a.
Arguments Crash {A} e.

Definition of_outcome {A} (o : outcome A) : attempt A :=
  match o with Ok a => Done a | Raise e => Crash (Lookup e) end.

Definition attempt_bind {A B} (m : attempt A) (k : A -> attempt B)
    : attempt B :=
  match m with Done a => k a | Crash e => Crash e end.

Notation "x <~ m ;; k" := (attempt_bind m (fun x => k))
  (at level 61, m at next level, right associativity).

(** [a % b] for integers, [b] being a length. *)
Definition py_mod (a b : Z) : attempt Z :=
  if b =? 0 then Crash ZeroDivisionError else Done (a mod b).

(** The keys the loop tells apart, and the events it receives. *)
Inductive key := K_b | K_s | K_RIGHT | K_LEFT | K_other.
Inductive event := QUIT | KEYDOWN (k : key) | OtherEvent.

(** The local variables of [game_loop] that change from frame to frame. *)
Record Game := mkGame {
  running : bool;
  portfolio : Portfolio;
  current_day : Z;
  message : string;
  selected_stock : Z
}.

(** The body of [for event in pygame.event.get()] for one event. *)
Definition handle_event (stock_tickers : list string)
    (stock_today : DataFrame) (g : Game) (ev : event) : attempt Game :=
  match ev with
  | QUIT =>
      Done (mkGame false (portfolio g) (current_day g) (message g)
              (selected_stock g))
  | KEYDOWN K_b =>
      ticker <~ of_outcome (np_index_str stock_tickers (selected_stock g)) ;;
      price <~ of_outcome (price_today stock_today ticker) ;;
      let r := buy_stock (portfolio g) ticker price 1 in
      Done (mkGame (running g) (snd r) (current_day g) (fst r)
              (selected_stock g))
  | KEYDOWN K_s =>
      ticker <~ of_outcome (np_index_str stock_tickers (selected_stock g)) ;;
      price <~ of_outcome (price_today stock_today ticker) ;;
      let r := sell_stock (portfolio g) ticker price 1 in
      Done (mkGame (running g) (snd r) (current_day g) (fst r)
              (selected_stock g))
  | KEYDOWN K_RIGHT =>
      sel <~ py_mod (selected_stock g + 1)
               (Z.of_nat (length stock_tickers)) ;;
      Done (mkGame (running g) (portfolio g) (current_day g) (message g) sel)
  | KEYDOWN K_LEFT =>
      sel <~ py_mod (selected_stock g - 1)
               (Z.of_nat (length stock_tickers)) ;;
      Done (mkGame (running g) (portfolio g) (current_day g) (message g) sel)
  | KEYDOWN K_other | OtherEvent => Done g
  end.

(** The whole [for event in pygame.event.get()] loop. *)
Fixpoint handle_events (stock_tickers : list string)
    (stock_today : DataFrame) (g : Game) (events : list event)
    : attempt Game :=
  match events with
  | [] => Done g
  | ev :: rest =>
      g' <~ handle_event stock_tickers stock_today g ev ;;
      handle_events stock_tickers stock_today g' rest
  end.

(** What one frame draws: the summary line, one line per ticker with a
    flag for the selected one (drawn in green), and the message when it is
    not empty. *)
Record Display := mkDisplay {
  portfolio_text : string;
  price_lines : list (string * bool);
  message_shown : option string
}.

(** The loop [for idx, ticker in enumerate(stock_tickers)], from [idx]. *)
Fixpoint draw_prices (stock_today : DataFrame) (selected : Z) (idx : Z)
    (tickers : list string) : attempt (list (string * bool)) :=
  match tickers with
  | [] => Done []
  | ticker :: rest =>
      price <~ of_outcome (price_today stock_today ticker) ;;
      lines <~ draw_prices stock_today selected (idx + 1) rest ;;
      Done ((ticker ++ ": $" ++ format_2f price, idx =? selected) :: lines)
  end.

(** One pass of the body of [while running]. *)
Definition frame (stock_data : DataFrame) (stock_tickers : list string)
    (g : Game) (events : list event) : attempt (Game * Display) :=
  stock_today <~ of_outcome
                   (simulate_prices stock_data (current_day g mod 100)) ;;
  g' <~ handle_events stock_tickers stock_today g events ;;
  lines <~ draw_prices stock_today (selected_stock g') 0 stock_tickers ;;
  Done (mkGame (running g') (portfolio g') (current_day g' + 1) (message g')
          (selected_stock g'),
        mkDisplay (summary (portfolio g')) lines
          (if str_truthy (message g') then Some (message g') else None)).

(** The loop [while running], fed the events of each frame in turn; it
    ends when [running] is false, and here also when no input is left. *)
Fixpoint play (stock_data : DataFrame) (stock_tickers : list string)
    (g : Game) (inputs : list (list event)) : attempt (Game * list Display) :=
  if running g then
    match inputs with
    | [] => Done (g, [])
    | events :: rest =>
        r <~ frame stock_data stock_tickers g events ;;
        r' <~ play stock_data stock_tickers (fst r) rest ;;
        Done (fst r', snd r :: snd r')
    end
  else Done (g, []).

(** The variables of [game_loop] before the first frame. *)
Definition game_start : Game :=
  mkGame true (Portfolio_init (of_int 10000)) 0 "" 0.

(** [game_loop()], from a state of the generators and the events of the
    frames. *)
Definition game_loop (s : RNG) (inputs : list (list event))
    : attempt (Game * list Display) :=
  stock_data <~ of_outcome (fst (generate_realistic_stock_data 5 100 s)) ;;
  play stock_data (unique_str (map Ticker stock_data)) game_start inputs.

(** The selection points at one of [n] tickers. *)
Definition selection_ok (n : Z) (g : Game) : Prop :=
  0 <= selected_stock g < n.

(** A display with one price line for each of [n] tickers, exactly one of
    them flagged as selected. *)
Definition one_highlighted (n : nat) (d : Display) : Prop :=
  length (price_lines d) = n /\
  length (filter (fun line => snd line) (price_lines d)) = 1%nat.

(** A series of prices that opens between 50 and 150, bounds included. *)
Definition opening_in_band (prices : list Qc) : Prop :=
  exists p rest,
    prices = p :: rest /\ (of_int 50 <= p)%Qc /\ (p <= of_int 150)%Qc.

(** ** The ledger on Python's numbers

    The methods of [Portfolio] take whatever numbers they are given.  The
    definitions above follow them on exact numbers, which is how Python
    computes with [int]s.  The game passes [float] prices, and the
    definitions of this module follow the same methods on Python's numbers
    as they are: an [int] of any size, or a [float], a binary64 number with
    its rounding, infinities and NaN.  Mixed operations convert the [int]
    operand to a [float], which raises [OverflowError] when it is out of
    range.  A method that raises keeps the assignments made before the
    raising line. *)
Module Py.

(** Binary64: 53 bits of precision, exponents below 1024. *)
Definition prec : Z := 53.
Definition emax : Z := 1024.

Inductive num :=
| Int (z : Z)
| Float (f : spec_float).

(** [float(z)]: the nearest float, ties to even; [None] stands for the
    [OverflowError] of an integer too large to convert. *)
Definition float_of_int (z : Z) : option spec_float :=
  match binary_normalize prec emax z 0 false with
  | S754_infinity _ => None
  | f => Some f
  end.

(** An operand of a float operation. *)
Definition as_float (x : num) : option spec_float :=
  match x with
  | Int z => float_of_int z
  | Float f => Some f
  end.

(** A binary operation: exact on two [int]s, in binary64 otherwise. *)
Definition arith (on_int : Z -> Z -> Z)
    (on_float : spec_float -> spec_float -> spec_float) (x y : num)
    : option num :=
  match x, y with
  | Int a, Int b => Some (Int (on_int a b))
  | _, _ =>
      match as_float x, as_float y with
      | Some f, Some g => Some (Float (on_float f g))
      | _, _ => None
      end
  end.

Definition num_mul : num -> num -> option num := arith Z.mul (SFmul prec emax).
Definition num_add : num -> num -> option num := arith Z.add (SFadd prec emax).
Definition num_sub : num -> num -> option num := arith Z.sub (SFsub prec emax).

(** The order between a float and an [int], which Python decides on the
    exact values; NaN is not ordered. *)
Definition float_int_compare (f : spec_float) (z : Z) : option comparison :=
  match f with
  | S754_nan => None
  | S754_infinity s => Some (if s then Lt else Gt)
  | S754_zero _ => Some (0 ?= z)
  | S754_finite s m e =>
      let v := if s then Zneg m else Zpos m in
      Some (match e with
            | Zneg k => v ?= z * 2 ^ Zpos k
            | _ => v * 2 ^ e ?= z
            end)
  end.

Definition num_compare (x y : num) : option comparison :=
  match x, y with
  | Int a, Int b => Some (a ?= b)
  | Float f, Float g => SFcompare f g
  | Float f, Int b => float_int_compare f b
  | Int a, Float g => option_map CompOpp (float_int_compare g a)
  end.

(** [x <= y] and [x > y]. *)
Definition num_le (x y : num) : bool :=
  match num_compare x y with
  | Some Lt | Some Eq => true
  | _ => false
  end.


(** [f"{x:.2f}"] for a float: the exact value rounded to the nearest
    hundredth, ties to even. *)
Definition format_float (f : spec_float) : string :=
  match f with
  | S754_nan => "nan"
  | S754_infinity s => if s then "-inf" else "inf"
  | S754_zero s => if s then "-0.00" else "0.00"
  | S754_finite s m e =>
      let n := match e with
               | Zneg k => round_half_even (Zpos m * 100) (2 ^ Zpos k)
               | _ => Zpos m * 2 ^ e * 100
               end in
      (if s then "-" else "") ++ str_int (n / 100) ++ "."
        ++ two_digits (n mod 100)
  end.

(** [f"{x:.2f}"]: an [int] is converted to a float first. *)
Definition format_2f (x : num) : option string :=
  option_map format_float (as_float x).

(** What a call gives back: the returned text, or [OverflowError]. *)
Inductive reply :=
| Returns (text : string)
| Raises_OverflowError.

Definition transaction : Type := string * side * Z * num.

Record Portfolio := mkPortfolio {
  balance : num;
  stocks : dict;
  transaction_history : list transaction
}.

Definition Portfolio_init (initial_balance : num) : Portfolio :=
  {| balance := initial_balance; stocks := []; transaction_history := [] |}.

Definition holdings (p : Portfolio) (ticker : string) : Z :=
  dict_get (stocks p) ticker 0.

Definition buy_stock (self : Portfolio) (ticker : string) (price : num)
    (quantity : Z) : reply * Portfolio :=
  match num_mul price (Int quantity) with
  | None => (Raises_OverflowError, self)
  | Some total_cost =>
      if num_le total_cost (balance self) then
        match num_sub (balance self) total_cost with
        | None => (Raises_OverflowError, self)
        | Some new_balance =>
            let self' :=
              {| balance := new_balance;
                 stocks := dict_set (stocks self) ticker
                             (dict_get (stocks self) ticker 0 + quantity);
                 transaction_history :=
                   transaction_history self
                     ++ [(ticker, Buy, quantity, price)] |} in
            match format_2f price with
            | None => (Raises_OverflowError, self')
            | Some shown =>
                (Returns ("Bought " ++ str_int quantity ++ " shares of "
                            ++ ticker ++ " at $" ++ shown), self')
            end
        end
      else (Returns InsufficientFunds, self)
  end.

Definition sell_stock (self : Portfolio) (ticker : string) (price : num)
    (quantity : Z) : reply * Portfolio :=
  if dict_contains (stocks self) ticker
     && (quantity <=? dict_item (stocks self) ticker) then
    let debited :=
      {| balance := balance self;
         stocks := dict_set (stocks self) ticker
                     (dict_item (stocks self) ticker - quantity);
         transaction_history := transaction_history self |} in
    match num_mul price (Int quantity) with
    | None => (Raises_OverflowError, debited)
    | Some proceeds =>
        match num_add (balance self) proceeds with
        | None => (Raises_OverflowError, debited)
        | Some new_balance =>
            let self' :=
              {| balance := new_balance;
                 stocks := stocks debited;
                 transaction_history :=
                   transaction_history self
                     ++ [(ticker, Sell, quantity, price)] |} in
            match format_2f price with
            | None => (Raises_OverflowError, self')
            | Some shown =>
                (Returns ("Sold " ++ str_int quantity ++ " shares of "
                            ++ ticker ++ " at $" ++ shown), self')
            end
        end
    end
  else (Returns InsufficientShares, self).

(** The tickers [summary] lists: those whose quantity is positive. *)
Definition listed (self : Portfolio) : dict :=
  filter (fun kv => 0 <? snd kv) (stocks self).

Definition stock_summary (self : Portfolio) : string :=
  join ", " (map summary_item (listed self)).

Definition summary (self : Portfolio) : reply :=
  match format_2f (balance self) with
  | None => Raises_OverflowError
  | Some shown =>
      Returns ("Balance: $" ++ shown ++ " | "
                 ++ (if str_truthy (stock_summary self)
                     then stock_summary self else "No stocks owned"))
  end.

(** The decimal literal [m / 10 ^ k] as Python reads it: the nearest
    float.  Both [m] and [10 ^ k] are to be exact floats. *)
Definition literal (m : Z) (k : Z) : num :=
  Float (SFdiv prec emax (binary_normalize prec emax m 0 false)
           (binary_normalize prec emax (10 ^ k) 0 false)).

(** What a history record says happened to the shares of [ticker]. *)
Definition share_effect (ticker : string) (t : transaction) : Z :=
  match t with
  | (ticker', Buy, quantity, _) =>
      if String.eqb ticker' ticker then quantity else 0
  | (ticker', Sell, quantity, _) =>
      if String.eqb ticker' ticker then - quantity else 0
  end.

Fixpoint history_shares (ticker : string) (h : list transaction) : Z :=
  match h with
  | [] => 0
  | t :: rest => share_effect ticker t + history_shares ticker rest
  end.

(** A call of one of the two methods. *)
Inductive order :=
| BuyOrder (ticker : string) (price : num) (quantity : Z)
| SellOrder (ticker : string) (price : num) (quantity : Z).

Definition quantity_of (o : order) : Z :=
  match o with
  | BuyOrder _ _ quantity | SellOrder _ _ quantity => quantity
  end.

Definition place_order (p : Portfolio) (o : order) : reply * Portfolio :=
  match o with
  | BuyOrder ticker price quantity => buy_stock p ticker price quantity
  | SellOrder ticker price quantity => sell_stock p ticker price quantity
  end.

(** The replies to the calls of [os], made one after the other by a caller
    that goes on after an exception, and the portfolio they leave. *)
Fixpoint place_orders (p : Portfolio) (os : list order)
    : list reply * Portfolio :=
  match os with
  | [] => ([], p)
  | o :: rest =>
      let (r, p') := place_order p o in
      let (rs, p'') := place_orders p' rest in
      (r :: rs, p'')
  end.

(** The call returned a text: it did not raise. *)
Definition returned (r : reply) : bool :=
  match r with
  | Returns _ => true
  | Raises_OverflowError => false
  end.

(** [random.uniform(a, b)] on floats for the draw [u]:
    [a + (b - a) * u]. *)
Definition uniform (a b u : spec_float) : spec_float :=
  SFadd prec emax a (SFmul prec emax (SFsub prec emax b a) u).

End Py.






(** * Properties of the ledger *)

Section Numbers.

Lemma num_leb_le (x y : Qc) : num_leb x y = true <-> (x <= y)%Qc.
Proof. unfold num_leb, Qcle. apply Qle_bool_iff. Qed.

Lemma num_leb_gt (x y : Qc) : num_leb x y = false <-> (y < x)%Qc.
Proof.
  unfold Qclt. split; intro H.
  - apply Qnot_le_lt. intro Hle. apply num_leb_le in Hle. congruence.
  - destruct (num_leb x y) eqn:E; [|reflexivity].
    apply num_leb_le in E. exfalso. exact (Qlt_not_le _ _ H E).
Qed.

Lemma of_int_nonneg (z : Z) : 0 <= z -> (0 <= of_int z)%Qc.
Proof.
  intro H. unfold Qcle, of_int, Q2Qc. cbn [this].
  rewrite !Qred_correct. unfold Qle. simpl. lia.
Qed.

Lemma py_max_floor (a b : Qc) : (b <= py_max a b)%Qc.
Proof.
  unfold py_max. destruct (num_leb b a) eqn:E.
  - now apply num_leb_le.
  - apply Qcle_refl.
Qed.

End Numbers.

Section Dict.

Lemma dict_lookup_set_same (d : dict) (k : string) (v : Z) :
  dict_lookup (dict_set d k v) k = Some v.
Proof.
  induction d as [|[k' v'] d IH]; simpl.
  - now rewrite String.eqb_refl.
  - destruct (String.eqb k' k) eqn:E; simpl; rewrite E; auto.
Qed.

Lemma dict_lookup_set_other (d : dict) (k k' : string) (v : Z) :
  k' <> k -> dict_lookup (dict_set d k v) k' = dict_lookup d k'.
Proof.
  intro Hne. induction d as [|[k0 v0] d IH]; simpl.
  - destruct (String.eqb k k') eqn:E; [|reflexivity].
    apply String.eqb_eq in E. congruence.
  - destruct (String.eqb k0 k) eqn:E; simpl.
    + apply String.eqb_eq in E. subst k0.
      destruct (String.eqb k k') eqn:E'; [|reflexivity].
      apply String.eqb_eq in E'. congruence.
    + now rewrite IH.
Qed.

Lemma dict_lookup_Forall (P : string * Z -> Prop) (d : dict) k v :
  Forall P d -> dict_lookup d k = Some v -> exists k', P (k', v).
Proof.
  induction 1 as [|[k0 v0] d Hx Hd IH]; simpl; [discriminate|].
  destruct (String.eqb k0 k).
  - intros [= ->]. now exists k0.
  - exact IH.
Qed.

Lemma dict_set_Forall (P : string * Z -> Prop) (d : dict) k v :
  (forall k', P (k', v)) -> Forall P d -> Forall P (dict_set d k v).
Proof.
  intros Hv. induction 1 as [|[k0 v0] d Hx Hd IH]; simpl.
  - constructor; auto.
  - destruct (String.eqb k0 k); constructor; auto.
Qed.

Lemma dict_get_nonneg (d : dict) k :
  Forall (fun kv => 0 <= snd kv) d -> 0 <= dict_get d k 0.
Proof.
  intro H. unfold dict_get. destruct (dict_lookup d k) eqn:E; [|lia].
  destruct (dict_lookup_Forall _ _ _ _ H E) as [k' Hk]. exact Hk.
Qed.

End Dict.

Section Ledger.

Variables (p : Portfolio) (ticker : string) (price : Qc) (quantity : Z).

(** What a buy does when the cost is covered. *)
Lemma buy_stock_success :
  (price * of_int quantity <= balance p)%Qc ->
  buy_stock p ticker price quantity =
    ("Bought " ++ str_int quantity ++ " shares of " ++ ticker ++ " at $"
       ++ format_2f price,
     {| balance := (balance p - price * of_int quantity)%Qc;
        stocks := dict_set (stocks p) ticker (holdings p ticker + quantity);
        transaction_history :=
          transaction_history p ++ [(ticker, Buy, quantity, price)] |}).
Proof.
  intro H. apply num_leb_le in H. unfold buy_stock. now rewrite H.
Qed.

Lemma buy_stock_failure :
  (balance p < price * of_int quantity)%Qc ->
  buy_stock p ticker price quantity = (InsufficientFunds, p).
Proof.
  intro H. apply num_leb_gt in H. unfold buy_stock. now rewrite H.
Qed.

(** What a sell does when enough shares are held. *)
Lemma sell_stock_success (held : Z) :
  dict_lookup (stocks p) ticker = Some held -> quantity <= held ->
  sell_stock p ticker price quantity =
    ("Sold " ++ str_int quantity ++ " shares of " ++ ticker ++ " at $"
       ++ format_2f price,
     {| balance := (balance p + price * of_int quantity)%Qc;
        stocks := dict_set (stocks p) ticker (held - quantity);
        transaction_history :=
          transaction_history p ++ [(ticker, Sell, quantity, price)] |}).
Proof.
  intros Hl Hq. unfold sell_stock, dict_contains, dict_item, dict_get.
  rewrite Hl. apply Z.leb_le in Hq. now rewrite Hq.
Qed.

Lemma sell_stock_failure :
  0 < quantity -> holdings p ticker < quantity ->
  sell_stock p ticker price quantity = (InsufficientShares, p).
Proof.
  unfold holdings, sell_stock, dict_contains, dict_item, dict_get.
  intros Hq Hh.
  destruct (dict_lookup (stocks p) ticker) as [held|]; [|reflexivity].
  apply Z.leb_gt in Hh. now rewrite Hh.
Qed.



(** The invariants hold of a fresh portfolio and are kept by both
    operations under their preconditions. *)
Lemma Portfolio_init_inv (initial_balance : Qc) :
  (0 <= initial_balance)%Qc -> Portfolio_inv (Portfolio_init initial_balance).
Proof. intro H. split; [exact H | constructor]. Qed.

Lemma buy_stock_inv :
  0 < quantity -> Portfolio_inv p ->
  Portfolio_inv (snd (buy_stock p ticker price quantity)).
Proof.
  intros Hq [Hb Hs]. unfold buy_stock.
  destruct (num_leb (price * of_int quantity) (balance p)) eqn:E;
    [|now split].
  apply num_leb_le in E. split; simpl.
  - apply Qcle_minus_iff in E. exact E.
  - apply dict_set_Forall; [|exact Hs].
    intros k0. simpl. pose proof (dict_get_nonneg _ ticker Hs). lia.
Qed.

Lemma sell_stock_inv :
  (0 < price)%Qc -> 0 < quantity -> Portfolio_inv p ->
  Portfolio_inv (snd (sell_stock p ticker price quantity)).
Proof.
  intros Hp Hq [Hb Hs]. unfold sell_stock.
  destruct (dict_contains (stocks p) ticker
            && (quantity <=? dict_item (stocks p) ticker)) eqn:E;
    [|now split].
  apply andb_prop in E. destruct E as [_ E].
  apply Z.leb_le in E. split; simpl.
  - replace 0%Qc with (0 + 0)%Qc by ring.
    apply Qcplus_le_compat; [exact Hb|].
    replace 0%Qc with (0 * of_int quantity)%Qc by ring.
    apply Qcmult_le_compat_r; [now apply Qclt_le_weak|].
    apply of_int_nonneg. lia.
  - apply dict_set_Forall; [|exact Hs]. intros k0. simpl. lia.
Qed.

End Ledger.

(** Splitting a conjunction into its parts, and nothing else. *)
Ltac split_all := repeat match goal with |- _ /\ _ => split end.

(** Equality of two concrete numbers, by evaluation. *)
Ltac qc_eval := apply Qc_is_canon; vm_compute; reflexivity.

(** Order between two concrete numbers, by evaluation. *)
Ltac qc_order := vm_compute; solve [reflexivity | discriminate].

(** C2. A sell with positive quantity and price for more shares than are
    held, where a ticker that was never bought counts as holding 0 shares,
    returns the InsufficientShares message and leaves the whole portfolio as
    it was. *)
Theorem sell_stock_insufficient_shares (p : Portfolio) (ticker : string)
    (price : Qc) (quantity : Z) :
  0 < quantity -> (0 < price)%Qc ->
  holdings p ticker < quantity ->
  sell_stock p ticker price quantity = (InsufficientShares, p).
Proof. intros Hq _ H. now apply sell_stock_failure. Qed.

Lemma sell_stock_insufficient_shares_witness :
  0 < 2 /\ (0 < of_int 60)%Qc /\
  holdings (Portfolio_init (of_int 100)) "Stock 1" < 2 /\
  sell_stock (Portfolio_init (of_int 100)) "Stock 1" (of_int 60) 2
    = (InsufficientShares, Portfolio_init (of_int 100)).
Proof.
  assert (Hq : 0 < 2) by lia.
  assert (Hp : (0 < of_int 60)%Qc) by qc_order.
  assert (Hh : holdings (Portfolio_init (of_int 100)) "Stock 1" < 2)
    by (vm_compute; reflexivity).
  split_all; [exact Hq | exact Hp | exact Hh |].
  exact (sell_stock_insufficient_shares _ "Stock 1" _ _ Hq Hp Hh).
Defined.

(** C9. The scenario of the spec: from cash 10000 and no holdings, buying 3
    shares of "Stock 1" at 100 succeeds (cash 9700, 3 held); selling 5 at 110
    then fails with InsufficientShares and changes nothing; selling 3 at 110
    succeeds (cash 10030, 0 held). *)
Theorem ledger_scenario :
  let p0 := Portfolio_init (of_int 10000) in
  let r1 := buy_stock p0 "Stock 1" (of_int 100) 3 in
  let r2 := sell_stock (snd r1) "Stock 1" (of_int 110) 5 in
  let r3 := sell_stock (snd r2) "Stock 1" (of_int 110) 3 in
  fst r1 = "Bought 3 shares of Stock 1 at $100.00" /\
  balance (snd r1) = of_int 9700 /\ holdings (snd r1) "Stock 1" = 3 /\
  fst r2 = InsufficientShares /\ snd r2 = snd r1 /\
  fst r3 = "Sold 3 shares of Stock 1 at $110.00" /\
  balance (snd r3) = of_int 10030 /\ holdings (snd r3) "Stock 1" = 0.
Proof.
  intros p0 r1 r2 r3.
  assert (E2 : r2 = (InsufficientShares, snd r1)).
  { apply sell_stock_failure; [lia | vm_compute; reflexivity]. }
  split_all.
  - vm_compute. reflexivity.
  - qc_eval.
  - vm_compute. reflexivity.
  - now rewrite E2.
  - now rewrite E2.
  - unfold r3. rewrite E2. vm_compute. reflexivity.
  - unfold r3. rewrite E2. qc_eval.
  - unfold r3. rewrite E2. vm_compute. reflexivity.
Qed.



(** * Properties of the summary *)

Section Summary.




End Summary.

(** * Properties of the price generator *)

Section Walk.

Lemma rng_ok_ext (s s' : RNG) :
  random_draws s' = random_draws s -> rng_ok s -> rng_ok s'.
Proof. unfold rng_ok. intros E H k. rewrite E. apply H. Qed.

(** [random.uniform(50, 150)] is at least 1 when [random()] is not
    negative. *)
Lemma uniform_floor (u : Qc) :
  (0 <= u)%Qc ->
  (of_int 1 <= of_int 50 + (of_int 150 - of_int 50) * u)%Qc.
Proof.
  intro Hu. apply Qcle_trans with (of_int 50 + 0)%Qc; [qc_order|].
  apply Qcplus_le_compat; [apply Qcle_refl|].
  replace 0%Qc with (0 * u)%Qc by ring.
  apply Qcmult_le_compat_r; [qc_order | exact Hu].
Qed.

(** The inner loop never raises; it appends one floored price per pass
    and only consumes normal draws. *)
Lemma price_walk_spec (n : nat) : forall (prices : list Qc) (s : RNG),
  exists tail s',
    price_walk n prices s = (Ok (prices ++ tail)%list, s') /\
    length tail = n /\
    Forall (fun x => (of_int 1 <= x)%Qc) tail /\
    random_draws s' = random_draws s.
Proof.
  induction n as [|n IH]; intros prices s.
  - exists [], s. cbn. rewrite app_nil_r. auto.
  - cbn [price_walk]. unfold bind at 1. cbn [np_random_normal].
    match goal with
    | |- context [price_walk n (prices ++ [?x])%list ?t] =>
        destruct (IH (prices ++ [x])%list t) as (tail & s' & E & L & F & D);
        exists (x :: tail), s'
    end.
    rewrite E, <- app_assoc. cbn [app length]. split_all; auto.
    constructor; [apply py_max_floor | exact F].
Qed.

Lemma stock_frame_ok (num_days i : Z) (s : RNG) :
  0 < num_days ->
  exists f s',
    stock_frame num_days i s = (Ok f, s') /\
    random_draws s' = random_draws s /\
    generated_frame num_days (rng_ok s) i f.
Proof.
  intro Hd. unfold stock_frame, random_uniform, bind, pd_date_range.
  destruct (Z.ltb_spec num_days 0); [lia|].
  cbn [lift random_random ret].
  match goal with
  | |- context [price_walk ?n [?x] ?t] =>
      destruct (price_walk_spec n [x] t) as (tail & s' & E & L & F & D);
      set (init := x) in *
  end.
  rewrite E. unfold lift, pd_DataFrame.
  assert (Hlen : length ([init] ++ tail)%list = Z.to_nat num_days).
  { cbn [app length]. rewrite L. lia. }
  rewrite length_seq, Hlen, Nat.eqb_refl.
  eexists _, s'. split_all; [reflexivity | exact D |].
  exists ([init] ++ tail)%list. unfold frame_of. rewrite Hlen.
  split_all; auto.
  intro Hok. constructor; [|exact F].
  apply uniform_floor, Hok.
Qed.

Lemma stock_frame_no_day (i : Z) (s : RNG) :
  stock_frame 0 i s
    = (Raise ValueError,
       mkRNG (random_draws s) (S (random_pos s)) (normal_draws s)
         (normal_pos s)).
Proof. reflexivity. Qed.

Lemma stock_frame_negative_days (num_days i : Z) (s : RNG) :
  num_days < 0 -> stock_frame num_days i s = (Raise OverflowError, s).
Proof.
  intro Hd. unfold stock_frame, bind, pd_date_range.
  destruct (Z.ltb_spec num_days 0); [reflexivity | lia].
Qed.

Lemma stock_loop_ok (num_days : Z) (Hd : 0 < num_days) (count : nat) :
  forall (i : Z) (stocks : list DataFrame) (s : RNG),
  exists frames s',
    stock_loop num_days count i stocks s = (Ok (stocks ++ frames)%list, s') /\
    random_draws s' = random_draws s /\
    Forall2 (generated_frame num_days (rng_ok s)) (range_from i count) frames.
Proof.
  induction count as [|count IH]; intros i stocks s.
  - exists [], s. cbn. rewrite app_nil_r. auto.
  - cbn [stock_loop range_from]. unfold bind.
    destruct (stock_frame_ok num_days i s Hd) as (f & s1 & E & D & G).
    rewrite E.
    destruct (IH (i + 1) (stocks ++ [f])%list s1)
      as (frames & s' & E' & D' & G').
    exists (f :: frames), s'. rewrite E', <- app_assoc.
    split_all; [reflexivity | congruence |].
    constructor; [exact G|].
    eapply Forall2_impl; [|exact G'].
    intros j g (prices & Hf & Hl & Hp). exists prices. split_all; auto.
    intro Hok. apply Hp. now apply (rng_ok_ext s).
Qed.

Lemma stock_loop_no_day (count : nat) (i : Z) (stocks : list DataFrame)
    (s : RNG) :
  stock_loop 0 (S count) i stocks s
    = (Raise ValueError,
       mkRNG (random_draws s) (S (random_pos s)) (normal_draws s)
         (normal_pos s)).
Proof. cbn [stock_loop]. unfold bind. now rewrite stock_frame_no_day. Qed.

Lemma stock_loop_negative_days (num_days : Z) (count : nat) (i : Z)
    (stocks : list DataFrame) (s : RNG) :
  num_days < 0 ->
  stock_loop num_days (S count) i stocks s = (Raise OverflowError, s).
Proof.
  intro Hd. cbn [stock_loop]. unfold bind.
  now rewrite (stock_frame_negative_days num_days i s Hd).
Qed.

End Walk.

Section Frames.

Lemma map_fst_combine_eq {A B} (l1 : list A) : forall (l2 : list B),
  length l1 = length l2 -> map fst (combine l1 l2) = l1.
Proof.
  induction l1 as [|a l1 IH]; intros [|b l2] H; try discriminate; cbn.
  - reflexivity.
  - f_equal. apply IH. now injection H.
Qed.

Lemma map_snd_combine_eq {A B} (l1 : list A) : forall (l2 : list B),
  length l1 = length l2 -> map snd (combine l1 l2) = l2.
Proof.
  induction l1 as [|a l1 IH]; intros [|b l2] H; try discriminate; cbn.
  - reflexivity.
  - f_equal. apply IH. now injection H.
Qed.

Variables (ticker : string) (prices : list Qc).

Lemma frame_of_Date :
  map Date (frame_of ticker prices) = seq 0 (length prices).
Proof.
  unfold frame_of. rewrite map_map. cbn [Date].
  apply map_fst_combine_eq. now rewrite length_seq.
Qed.

Lemma frame_of_Price : map Price (frame_of ticker prices) = prices.
Proof.
  unfold frame_of. rewrite map_map. cbn [Price].
  apply map_snd_combine_eq. now rewrite length_seq.
Qed.

Lemma frame_of_Ticker :
  Forall (fun r => Ticker r = ticker) (frame_of ticker prices).
Proof. unfold frame_of. apply Forall_map, Forall_forall. reflexivity. Qed.

End Frames.

Section Tickers.

Lemma str_int_inj (a b : Z) : str_int a = str_int b -> a = b.
Proof.
  unfold str_int. intro H.
  assert (Hnn : forall z, Z.to_int z <> Decimal.Pos Decimal.Nil /\
                          Z.to_int z <> Decimal.Neg Decimal.Nil).
  { intros [|q|q]; cbn; split; try discriminate;
      intros [= E]; exact (DecimalPos.Unsigned.to_uint_nonnil q E). }
  assert (E : Some (Z.to_int a) = Some (Z.to_int b)).
  { destruct (Hnn a) as [A1 A2], (Hnn b) as [B1 B2].
    rewrite <- (NilZero.isi _ A1 A2), <- (NilZero.isi _ B1 B2).
    now rewrite H. }
  injection E as E.
  rewrite <- (DecimalZ.of_to a), <- (DecimalZ.of_to b). now rewrite E.
Qed.

(** Different tickers get different names. *)
Lemma ticker_name_inj (i j : Z) : ticker_name i = ticker_name j -> i = j.
Proof.
  unfold ticker_name. cbn [append]. intros [= H].
  apply str_int_inj in H. lia.
Qed.

Lemma range_from_In (count : nat) : forall i j,
  In j (range_from i count) <-> i <= j < i + Z.of_nat count.
Proof.
  induction count as [|count IH]; intros i j; cbn [range_from In].
  - lia.
  - rewrite IH. lia.
Qed.

Lemma range_from_length (count : nat) : forall i,
  length (range_from i count) = count.
Proof. induction count; intro i; cbn; auto. Qed.

Lemma filter_frame_own (i : Z) (prices : list Qc) :
  filter (fun r => String.eqb (Ticker r) (ticker_name i))
         (frame_of (ticker_name i) prices)
    = frame_of (ticker_name i) prices.
Proof.
  induction (frame_of_Ticker (ticker_name i) prices) as [|r l Hr _ IHl];
    [reflexivity|].
  cbn [filter]. now rewrite Hr, String.eqb_refl, IHl.
Qed.

Lemma filter_frame_other (i j : Z) (prices : list Qc) :
  j <> i ->
  filter (fun r => String.eqb (Ticker r) (ticker_name i))
         (frame_of (ticker_name j) prices)
    = [].
Proof.
  intro Hne.
  induction (frame_of_Ticker (ticker_name j) prices) as [|r l Hr _ IHl];
    [reflexivity|].
  cbn [filter]. rewrite Hr.
  destruct (String.eqb (ticker_name j) (ticker_name i)) eqn:E; [|exact IHl].
  apply String.eqb_eq, ticker_name_inj in E. contradiction.
Qed.

Variables (num_days : Z) (floored : Prop).

(** Rows of other tickers are dropped by the selection on one ticker. *)
Lemma filter_ticker_others (i : Z) (idxs : list Z) (frames : list DataFrame) :
  Forall2 (generated_frame num_days floored) idxs frames ->
  ~ In i idxs ->
  filter (fun r => String.eqb (Ticker r) (ticker_name i)) (concat frames) = [].
Proof.
  induction 1 as [|j f idxs frames (prices & Hf & _) _ IH]; intro Hni;
    [reflexivity|].
  cbn [concat]. rewrite filter_app, IH by (intro; apply Hni; now right).
  rewrite app_nil_r. subst f. apply filter_frame_other.
  intros ->. apply Hni. now left.
Qed.

(** The selection on one ticker returns the frame built for it. *)
Lemma filter_ticker_own (i : Z) (idxs : list Z) (frames : list DataFrame) :
  Forall2 (generated_frame num_days floored) idxs frames ->
  NoDup idxs -> In i idxs ->
  generated_frame num_days floored i
    (filter (fun r => String.eqb (Ticker r) (ticker_name i)) (concat frames)).
Proof.
  induction 1 as [|j f idxs frames (prices & Hf & Hl & Hp) Hrest IH];
    intros Hnd Hin; [contradiction|].
  inversion Hnd as [|? ? Hnj Hnd']; subst.
  cbn [concat]. rewrite filter_app. destruct Hin as [-> | Hin].
  - rewrite (filter_ticker_others i idxs frames Hrest Hnj), app_nil_r.
    rewrite filter_frame_own. now exists prices.
  - rewrite filter_frame_other by (intros ->; contradiction).
    now apply IH.
Qed.

End Tickers.

Section Generate.

Lemma range_from_NoDup (count : nat) : forall i, NoDup (range_from i count).
Proof.
  induction count as [|count IH]; intro i; cbn [range_from]; constructor.
  - rewrite range_from_In. lia.
  - apply IH.
Qed.

Variables (num_stocks num_days : Z) (s : RNG).

(** With positive arguments the generator returns the frames of the
    tickers 0, 1, ... one after the other. *)
Lemma generate_ok :
  0 < num_stocks -> 0 < num_days ->
  exists frames s',
    generate_realistic_stock_data num_stocks num_days s
      = (Ok (concat frames), s') /\
    Forall2 (generated_frame num_days (rng_ok s))
            (range_from 0 (Z.to_nat num_stocks)) frames.
Proof.
  intros Hn Hd. unfold generate_realistic_stock_data, bind.
  destruct (stock_loop_ok num_days Hd (Z.to_nat num_stocks) 0 [] s)
    as (frames & s' & E & _ & G).
  rewrite E. cbn [app]. exists frames, s'. split; [|exact G].
  destruct frames as [|f frames]; [|reflexivity].
  inversion G as [Hnil|]. exfalso.
  apply (f_equal (@length Z)) in Hnil.
  rewrite range_from_length in Hnil. cbn in Hnil. lia.
Qed.

Lemma generate_no_stock :
  num_stocks <= 0 ->
  generate_realistic_stock_data num_stocks num_days s = (Raise ValueError, s).
Proof.
  intro Hn. unfold generate_realistic_stock_data, bind.
  replace (Z.to_nat num_stocks) with O by lia. reflexivity.
Qed.

Lemma generate_no_day :
  0 < num_stocks -> num_days = 0 ->
  generate_realistic_stock_data num_stocks num_days s
    = (Raise ValueError,
       mkRNG (random_draws s) (S (random_pos s)) (normal_draws s)
         (normal_pos s)).
Proof.
  intros Hn ->. unfold generate_realistic_stock_data, bind.
  destruct (Z.to_nat num_stocks) as [|count] eqn:E; [lia|].
  now rewrite stock_loop_no_day.
Qed.

Lemma generate_negative_days :
  0 < num_stocks -> num_days < 0 ->
  generate_realistic_stock_data num_stocks num_days s
    = (Raise OverflowError, s).
Proof.
  intros Hn Hd. unfold generate_realistic_stock_data, bind.
  destruct (Z.to_nat num_stocks) as [|count] eqn:E; [lia|].
  now rewrite (stock_loop_negative_days num_days count 0 [] s Hd).
Qed.

End Generate.

Section FrameList.

Variables (num_days : Z) (floored : Prop).

Lemma frames_length (idxs : list Z) (frames : list DataFrame) :
  Forall2 (generated_frame num_days floored) idxs frames ->
  length (concat frames) = (length idxs * Z.to_nat num_days)%nat.
Proof.
  induction 1 as [|j f idxs frames (prices & Hf & Hl & _) _ IH];
    [reflexivity|].
  cbn [concat length]. rewrite length_app, IH. subst f.
  rewrite <- (length_map Date), frame_of_Date, length_seq, Hl. lia.
Qed.

Lemma frames_floored (idxs : list Z) (frames : list DataFrame) :
  floored ->
  Forall2 (generated_frame num_days floored) idxs frames ->
  Forall (fun r => (of_int 1 <= Price r)%Qc) (concat frames).
Proof.
  intro Hfl.
  induction 1 as [|j f idxs frames (prices & Hf & _ & Hp) _ IH];
    [constructor|].
  cbn [concat]. apply Forall_app. split; [|exact IH].
  subst f. apply Forall_map with (f := Price) (P := fun x => (of_int 1 <= x)%Qc).
  rewrite frame_of_Price. auto.
Qed.

Lemma frames_dates_in (idxs : list Z) (frames : list DataFrame) :
  Forall2 (generated_frame num_days floored) idxs frames ->
  forall x, In x (map Date (concat frames)) ->
            In x (seq 0 (Z.to_nat num_days)).
Proof.
  induction 1 as [|j f idxs frames (prices & Hf & Hl & _) _ IH];
    [contradiction|].
  intro x. cbn [concat]. rewrite map_app, in_app_iff. subst f.
  rewrite frame_of_Date, Hl. intros [H | H]; auto.
Qed.

Lemma frames_dates (j : Z) (idxs : list Z) (f : DataFrame)
    (frames : list DataFrame) :
  Forall2 (generated_frame num_days floored) (j :: idxs) (f :: frames) ->
  map Date (concat (f :: frames))
    = (seq 0 (Z.to_nat num_days) ++ map Date (concat frames))%list.
Proof.
  intro H. inversion H as [|? ? ? ? (prices & Hf & Hl & _) _]; subst.
  cbn [concat]. now rewrite map_app, frame_of_Date, Hl.
Qed.

End FrameList.

Section Unique.

Lemma existsb_eqb_In (x : nat) (seen : list nat) :
  existsb (Nat.eqb x) seen = true <-> In x seen.
Proof.
  rewrite existsb_exists. split.
  - intros (y & Hy & E). apply Nat.eqb_eq in E. now subst.
  - intro H. exists x. split; [exact H | apply Nat.eqb_refl].
Qed.

Lemma unique_from_seen (l : list nat) : forall seen,
  (forall x, In x l -> In x seen) -> unique_from seen l = [].
Proof.
  induction l as [|x l IH]; intros seen H; [reflexivity|].
  cbn [unique_from].
  rewrite (proj2 (existsb_eqb_In x seen)) by (apply H; now left).
  apply IH. intros y Hy. apply H. now right.
Qed.

Lemma unique_from_fresh (r : list nat) (l : list nat) : forall seen,
  NoDup l -> (forall x, In x l -> ~ In x seen) ->
  (forall x, In x r -> In x seen \/ In x l) ->
  unique_from seen (l ++ r) = l.
Proof.
  induction l as [|x l IH]; intros seen Hnd Hfresh Hr.
  - cbn [app]. apply unique_from_seen. intros x Hx.
    destruct (Hr x Hx); [assumption | contradiction].
  - inversion Hnd as [|? ? Hx Hnd']; subst. cbn [app unique_from].
    destruct (existsb (Nat.eqb x) seen) eqn:E.
    + apply existsb_eqb_In in E. exfalso. apply (Hfresh x); [now left | exact E].
    + f_equal. apply IH; [exact Hnd' | |].
      * intros y Hy [<- | Hs]; [contradiction|].
        apply (Hfresh y); [now right | exact Hs].
      * intros y Hy. destruct (Hr y Hy) as [Hs | [<- | Hl]].
        -- left. now right.
        -- left. now left.
        -- now right.
Qed.

(** The dates of a generated table are the days 0 .. num_days - 1. *)
Lemma unique_dates (num_days : Z) (floored : Prop) (j : Z) (idxs : list Z)
    (f : DataFrame) (frames : list DataFrame) :
  Forall2 (generated_frame num_days floored) (j :: idxs) (f :: frames) ->
  unique (map Date (concat (f :: frames))) = seq 0 (Z.to_nat num_days).
Proof.
  intro H. rewrite (frames_dates _ _ _ _ _ _ H). unfold unique.
  apply unique_from_fresh.
  - apply seq_NoDup.
  - intros x _ [].
  - intros x Hx. right. inversion H; subst.
    eapply frames_dates_in; eauto.
Qed.

Lemma np_index_seq (len : nat) (i : Z) :
  0 <= i < Z.of_nat len -> np_index (seq 0 len) i = Ok (Z.to_nat i).
Proof.
  intro H. unfold np_index. rewrite length_seq.
  destruct (Z.leb_spec 0 i); [|lia].
  destruct (Z.ltb_spec i (Z.of_nat len)); [|lia].
  cbn [andb]. rewrite seq_nth by lia. reflexivity.
Qed.

Lemma np_index_out (len : nat) (i : Z) :
  Z.of_nat len <= i -> np_index (seq 0 len) i = Raise IndexError.
Proof.
  intro H. unfold np_index. rewrite length_seq.
  destruct (Z.ltb_spec i (Z.of_nat len)); [lia|].
  destruct (Z.ltb_spec i 0); [lia|].
  now rewrite !andb_false_r.
Qed.

End Unique.

Section Determinism.










End Determinism.

(** C3. For positive [num_stocks] and [num_days], whatever the normal draws
    are (however negative the shocks), the generator returns a table in
    which every price is at least the floor 1, hence strictly positive. The
    first price of a ticker is [random.uniform(50, 150)], which is at least
    50 as [random.random()] lies in [[0, 1)]; every later price went through
    [max(_, 1)]. *)
Theorem generated_prices_positive (num_stocks num_days : Z) (s : RNG) :
  0 < num_stocks -> 0 < num_days -> rng_ok s ->
  exists df s',
    generate_realistic_stock_data num_stocks num_days s = (Ok df, s') /\
    Forall (fun r => (of_int 1 <= Price r)%Qc /\ (0 < Price r)%Qc) df.
Proof.
  intros Hn Hd Hok.
  destruct (generate_ok num_stocks num_days s Hn Hd) as (frames & s' & E & G).
  exists (concat frames), s'. split; [exact E|].
  eapply Forall_impl; [|exact (frames_floored _ _ _ _ Hok G)].
  intros r Hr. split; [exact Hr|].
  eapply Qclt_le_trans; [|exact Hr]. qc_order.
Qed.

Lemma generated_prices_positive_witness :
  0 < 2 /\ 0 < 3 /\ rng_ok (const_rng (of_int (-1000))) /\
  exists df s',
    generate_realistic_stock_data 2 3 (const_rng (of_int (-1000)))
      = (Ok df, s') /\
    Forall (fun r => (of_int 1 <= Price r)%Qc /\ (0 < Price r)%Qc) df.
Proof.
  assert (Hn : 0 < 2) by lia.
  assert (Hd : 0 < 3) by lia.
  assert (Hok : rng_ok (const_rng (of_int (-1000))))
    by (intro k; split; qc_order).
  split_all; [exact Hn | exact Hd | exact Hok |].
  exact (generated_prices_positive 2 3 _ Hn Hd Hok).
Defined.

(** C6, as the spec states it, fails: the generator checks none of its
    arguments and has no InvalidParameter error. What fails for a bad
    argument is the pandas call that is reached, so the failures are not one
    error: with no day it is the [ValueError] of the [DataFrame] constructor,
    raised after a number has been drawn from [random], and with a negative
    number of days it is the [OverflowError] raised inside [pd.date_range],
    before any draw. *)
Lemma generator_rejection_counterexample :
  fst (generate_realistic_stock_data 1 0 (const_rng (of_int 0)))
    = Raise ValueError /\
  random_pos (snd (generate_realistic_stock_data 1 0 (const_rng (of_int 0))))
    = 1%nat /\
  random_pos (const_rng (of_int 0)) = 0%nat /\
  generate_realistic_stock_data 1 (-1) (const_rng (of_int 0))
    = (Raise OverflowError, const_rng (of_int 0)) /\
  fst (generate_realistic_stock_data 1 0 (const_rng (of_int 0)))
    <> fst (generate_realistic_stock_data 1 (-1) (const_rng (of_int 0))).
Proof.
  rewrite generate_no_day, generate_negative_days by lia.
  cbn [fst snd random_pos const_rng]. split_all; try reflexivity.
  discriminate.
Qed.

(** C6, amended. The generator has no parameter check of its own and no
    InvalidParameter error; for bad arguments it fails where a pandas call
    fails, and returns no table. For [num_stocks <= 0] that is the
    [ValueError] of [pd.concat] on no frame, with the random generators
    untouched. For a positive [num_stocks] and [num_days = 0] it is the
    [ValueError] of the first [DataFrame] whose columns differ in length,
    after one draw from [random]. For a positive [num_stocks] and a
    negative [num_days] it is the [OverflowError] raised inside
    [pd.date_range], with the random generators untouched. For positive
    arguments it returns a table that holds, for each ticker ["Stock 1"] ...
    ["Stock num_stocks"], exactly [num_days] rows, one per day in day
    order, and nothing else. *)
Theorem generate_outcomes (num_stocks num_days : Z) (s : RNG) :
  (num_stocks <= 0 ->
   generate_realistic_stock_data num_stocks num_days s
     = (Raise ValueError, s)) /\
  (0 < num_stocks -> num_days = 0 ->
   generate_realistic_stock_data num_stocks num_days s
     = (Raise ValueError,
        mkRNG (random_draws s) (S (random_pos s)) (normal_draws s)
          (normal_pos s))) /\
  (0 < num_stocks -> num_days < 0 ->
   generate_realistic_stock_data num_stocks num_days s
     = (Raise OverflowError, s)) /\
  (0 < num_stocks -> 0 < num_days ->
   exists df s',
     generate_realistic_stock_data num_stocks num_days s = (Ok df, s') /\
     length df = (Z.to_nat num_stocks * Z.to_nat num_days)%nat /\
     forall i, 0 <= i < num_stocks ->
       let rows :=
         filter (fun r => String.eqb (Ticker r) (ticker_name i)) df in
       map Date rows = seq 0 (Z.to_nat num_days) /\
       length (prices_of df (ticker_name i)) = Z.to_nat num_days).
Proof.
  split_all.
  - apply generate_no_stock.
  - apply generate_no_day.
  - apply generate_negative_days.
  - intros Hn Hd.
    destruct (generate_ok num_stocks num_days s Hn Hd)
      as (frames & s' & E & G).
    exists (concat frames), s'. split_all; [exact E | |].
    + rewrite (frames_length _ _ _ _ G), range_from_length. reflexivity.
    + intros i Hi rows. subst rows. unfold prices_of.
      destruct (filter_ticker_own num_days _ i _ _ G)
        as (prices & Hf & Hl & _).
      * apply range_from_NoDup.
      * apply range_from_In. lia.
      * rewrite Hf, frame_of_Date, frame_of_Price, Hl. auto.
Qed.

Lemma generate_outcomes_witness :
  generate_realistic_stock_data 0 3 (const_rng (of_int 0))
    = (Raise ValueError, const_rng (of_int 0)) /\
  fst (generate_realistic_stock_data 2 0 (const_rng (of_int 0)))
    = Raise ValueError /\
  generate_realistic_stock_data 2 (-1) (const_rng (of_int 0))
    = (Raise OverflowError, const_rng (of_int 0)) /\
  (exists df s',
     generate_realistic_stock_data 2 3 (const_rng (of_int 0)) = (Ok df, s') /\
     length df = 6%nat /\
     forall i, 0 <= i < 2 ->
       let rows :=
         filter (fun r => String.eqb (Ticker r) (ticker_name i)) df in
       map Date rows = [0; 1; 2]%nat /\
       length (prices_of df (ticker_name i)) = 3%nat).
Proof.
  split_all.
  - apply (generate_outcomes 0 3 (const_rng (of_int 0))). lia.
  - rewrite (proj1 (proj2 (generate_outcomes 2 0 (const_rng (of_int 0)))));
      [reflexivity | lia | reflexivity].
  - apply (generate_outcomes 2 (-1) (const_rng (of_int 0))); lia.
  - apply (generate_outcomes 2 3 (const_rng (of_int 0))); lia.
Defined.


(** * Properties of the day lookup *)

Section Lookup.

Variables (num_days : Z) (floored : Prop) (j : Z) (idxs : list Z)
          (f : DataFrame) (frames : list DataFrame).
Hypothesis generated :
  Forall2 (generated_frame num_days floored) (j :: idxs) (f :: frames).

(** A day of the table is found, with the rows of that day. *)
Lemma simulate_prices_in_range (day : Z) :
  0 <= day < num_days ->
  simulate_prices (concat (f :: frames)) day
    = Ok (filter (fun r => Nat.eqb (Date r) (Z.to_nat day))
                 (concat (f :: frames))).
Proof.
  intro H. unfold simulate_prices.
  rewrite (unique_dates _ _ _ _ _ _ generated), np_index_seq by lia.
  reflexivity.
Qed.

(** A day past the end of the table is an index error. *)
Lemma simulate_prices_past_end (day : Z) :
  0 < num_days -> num_days <= day ->
  simulate_prices (concat (f :: frames)) day = Raise IndexError.
Proof.
  intros Hd H. unfold simulate_prices.
  rewrite (unique_dates _ _ _ _ _ _ generated), np_index_out by lia.
  reflexivity.
Qed.

End Lookup.

(** C5, as the spec states it, fails on a series whose length is not 100:
    for the series of length 2 generated for one ticker, asking
    [simulate_prices] for day 2 is an index error, and so is the lookup of
    the game loop at day 2, whereas day 0 is found. *)
Lemma day_lookup_wrap_counterexample :
  match fst (generate_realistic_stock_data 1 2 (const_rng (of_int 0))) with
  | Ok df =>
      unique (map Date df) = [0; 1]%nat /\
      simulate_prices df 2 = Raise IndexError /\
      stock_today df 2 = Raise IndexError /\
      simulate_prices df 2 <> simulate_prices df 0 /\
      stock_today df 2 <> stock_today df 0
  | Raise _ => False
  end.
Proof.
  vm_compute. split_all; try reflexivity; intro H; discriminate H.
Qed.

(** C5, amended. The game loop looks prices up at [current_day % 100], and
    100 is the length of the series it generates. For a table generated with
    [num_days = 100], the lookup of the game loop at any day succeeds and
    returns the rows of day [current_day mod 100]; so days [d] and [d + 100]
    give the same prices, and day 100 gives the prices of day 0.
    [simulate_prices] itself does not wrap: asked for day 100 it raises an
    index error. *)
Theorem stock_today_wraps (num_stocks : Z) (s : RNG) :
  0 < num_stocks ->
  exists df s',
    generate_realistic_stock_data num_stocks 100 s = (Ok df, s') /\
    (forall day,
       stock_today df day
         = Ok (filter (fun r => Nat.eqb (Date r) (Z.to_nat (day mod 100))) df)) /\
    (forall day, stock_today df (day + 100) = stock_today df day) /\
    stock_today df 100 = stock_today df 0 /\
    simulate_prices df 100 = Raise IndexError.
Proof.
  intro Hn.
  destruct (generate_ok num_stocks 100 s Hn eq_refl) as (frames & s' & E & G).
  destruct (Z.to_nat num_stocks) as [|count] eqn:Ec; [lia|].
  cbn [range_from] in G. destruct frames as [|f frames]; [inversion G|].
  exists (concat (f :: frames)), s'. split_all.
  - exact E.
  - intro day. unfold stock_today.
    apply (simulate_prices_in_range _ _ _ _ _ _ G).
    apply Z.mod_pos_bound. lia.
  - intro day. unfold stock_today. f_equal.
    rewrite <- (Z.mul_1_l 100) at 1. apply Z.mod_add. lia.
  - reflexivity.
  - apply (simulate_prices_past_end _ _ _ _ _ _ G); lia.
Qed.

Lemma stock_today_wraps_witness :
  0 < 5 /\
  exists df s',
    generate_realistic_stock_data 5 100 (const_rng (of_int 0)) = (Ok df, s') /\
    (forall day,
       stock_today df day
         = Ok (filter (fun r => Nat.eqb (Date r) (Z.to_nat (day mod 100))) df)) /\
    (forall day, stock_today df (day + 100) = stock_today df day) /\
    stock_today df 100 = stock_today df 0 /\
    simulate_prices df 100 = Raise IndexError.
Proof.
  assert (Hn : 0 < 5) by lia.
  split; [exact Hn|].
  exact (stock_today_wraps 5 (const_rng (of_int 0)) Hn).
Defined.


(** * Further properties of the ledger *)

Section LedgerArithmetic.

Lemma of_int_add (a b : Z) : of_int (a + b) = (of_int a + of_int b)%Qc.
Proof.
  apply Qc_is_canon. unfold of_int, Qcplus, Q2Qc. cbn [this].
  rewrite !Qred_correct, inject_Z_plus. reflexivity.
Qed.

Lemma of_int_opp (a : Z) : of_int (- a) = (- of_int a)%Qc.
Proof.
  apply Qc_is_canon. unfold of_int, Qcopp, Q2Qc. cbn [this].
  rewrite !Qred_correct, inject_Z_opp. reflexivity.
Qed.

Lemma holdings_set_same (d : dict) (k : string) (v : Z) :
  dict_get (dict_set d k v) k 0 = v.
Proof. unfold dict_get. now rewrite dict_lookup_set_same. Qed.

Lemma holdings_set_other (d : dict) (k k' : string) (v : Z) :
  k' <> k -> dict_get (dict_set d k v) k' 0 = dict_get d k' 0.
Proof. intro H. unfold dict_get. now rewrite dict_lookup_set_other. Qed.

Lemma holdings_after_set (b : Qc) (d : dict) (h : list transaction)
    (k : string) (v : Z) :
  holdings (mkPortfolio b (dict_set d k v) h) k = v.
Proof. apply holdings_set_same. Qed.

(** The two outcomes of each method, with the state they leave. *)
Lemma buy_stock_cases (p : Portfolio) (ticker : string) (price : Qc)
    (quantity : Z) :
  (buy_stock p ticker price quantity = (InsufficientFunds, p) /\
   (balance p < price * of_int quantity)%Qc) \/
  ((price * of_int quantity <= balance p)%Qc /\
   exists msg,
     buy_stock p ticker price quantity =
       (msg,
        {| balance := (balance p - price * of_int quantity)%Qc;
           stocks := dict_set (stocks p) ticker (holdings p ticker + quantity);
           transaction_history :=
             transaction_history p ++ [(ticker, Buy, quantity, price)] |})).
Proof.
  destruct (num_leb (price * of_int quantity) (balance p)) eqn:E.
  - right. apply num_leb_le in E. split; [exact E|].
    eexists. now apply buy_stock_success.
  - left. apply num_leb_gt in E. split; [|exact E].
    now apply buy_stock_failure.
Qed.

Lemma sell_stock_cases (p : Portfolio) (ticker : string) (price : Qc)
    (quantity : Z) :
  sell_stock p ticker price quantity = (InsufficientShares, p) \/
  (dict_contains (stocks p) ticker = true /\ quantity <= holdings p ticker /\
   exists msg,
     sell_stock p ticker price quantity =
       (msg,
        {| balance := (balance p + price * of_int quantity)%Qc;
           stocks := dict_set (stocks p) ticker (holdings p ticker - quantity);
           transaction_history :=
             transaction_history p ++ [(ticker, Sell, quantity, price)] |})).
Proof.
  unfold sell_stock, holdings, dict_item.
  destruct (dict_contains (stocks p) ticker) eqn:Ec; [|now left].
  destruct (quantity <=? dict_get (stocks p) ticker 0) eqn:Eq; [|now left].
  right. apply Z.leb_le in Eq. split_all; auto. eexists. reflexivity.
Qed.

End LedgerArithmetic.

Section LedgerOrder.

(** Writing a key twice keeps the second value only. *)
Lemma dict_set_twice (d : dict) (k : string) (v w : Z) :
  dict_set (dict_set d k v) k w = dict_set d k w.
Proof.
  induction d as [|[k' v'] d IH]; cbn [dict_set].
  - now rewrite String.eqb_refl.
  - destruct (String.eqb k' k) eqn:E; cbn [dict_set]; rewrite E;
      [reflexivity | now rewrite IH].
Qed.

(** Writing back the count [d.get(k, 0)] changes no positive holding. *)
Lemma filter_positive_set_get (d : dict) (k : string) :
  filter (fun kv => 0 <? snd kv) (dict_set d k (dict_get d k 0))
    = filter (fun kv => 0 <? snd kv) d.
Proof.
  induction d as [|[k' v'] d IH]; [reflexivity|].
  unfold dict_get in *. cbn [dict_set dict_lookup].
  destruct (String.eqb k' k) eqn:E; [reflexivity|].
  cbn [filter snd]. now rewrite IH.
Qed.

Lemma place_orders_app (p : Portfolio) (os1 os2 : list order) :
  place_orders p (os1 ++ os2) = place_orders (place_orders p os1) os2.
Proof.
  revert p. induction os1 as [|o os1 IH]; intro p; cbn; auto.
Qed.

End LedgerOrder.

(** X1. A buy or a sell of one ticker, successful or not, leaves the share
    count of every other ticker as it was. *)
Theorem trade_leaves_other_tickers (p : Portfolio) (ticker other : string)
    (price : Qc) (quantity : Z) :
  other <> ticker ->
  holdings (snd (buy_stock p ticker price quantity)) other = holdings p other /\
  holdings (snd (sell_stock p ticker price quantity)) other = holdings p other.
Proof.
  intro Hne. split.
  - destruct (buy_stock_cases p ticker price quantity)
      as [[E _] | [_ [msg E]]]; rewrite E; [reflexivity|].
    unfold holdings at 1. cbn [snd stocks]. now apply holdings_set_other.
  - destruct (sell_stock_cases p ticker price quantity)
      as [E | (_ & _ & msg & E)]; rewrite E; [reflexivity|].
    unfold holdings at 1. cbn [snd stocks]. now apply holdings_set_other.
Qed.

Lemma trade_leaves_other_tickers_witness :
  "Stock 2" <> "Stock 1" /\
  holdings (snd (buy_stock (Portfolio_init (of_int 10000)) "Stock 1"
                   (of_int 100) 3)) "Stock 2" = 0 /\
  holdings (snd (sell_stock (Portfolio_init (of_int 10000)) "Stock 1"
                   (of_int 100) 3)) "Stock 2" = 0.
Proof.
  assert (Hne : "Stock 2" <> "Stock 1") by discriminate.
  split; [exact Hne|].
  exact (trade_leaves_other_tickers (Portfolio_init (of_int 10000))
           "Stock 1" "Stock 2" (of_int 100) 3 Hne).
Defined.



(** X7. The history only grows: after any sequence of buys and sells, the
    history is the history from before followed by the records added since,
    at most one for each call. *)
Theorem history_only_grows (p : Portfolio) (os : list order) :
  exists added,
    transaction_history (place_orders p os)
      = (transaction_history p ++ added)%list /\
    (length added <= length os)%nat.
Proof.
  revert p. induction os as [|o os IH]; intro p; cbn [place_orders].
  - exists []. rewrite app_nil_r. split; [reflexivity | apply Nat.le_refl].
  - destruct (IH (snd (place_order p o))) as (added & E & L).
    assert (H : exists one,
      transaction_history (snd (place_order p o))
        = (transaction_history p ++ one)%list /\ (length one <= 1)%nat).
    { destruct o as [t pr q | t pr q]; cbn [place_order].
      - destruct (buy_stock_cases p t pr q) as [[Eb _] | [_ [msg Eb]]];
          rewrite Eb; cbn [snd transaction_history].
        + exists []. rewrite app_nil_r. split; [reflexivity | cbn; lia].
        + eexists. split; [reflexivity | cbn; lia].
      - destruct (sell_stock_cases p t pr q) as [Es | (_ & _ & msg & Es)];
          rewrite Es; cbn [snd transaction_history].
        + exists []. rewrite app_nil_r. split; [reflexivity | cbn; lia].
        + eexists. split; [reflexivity | cbn; lia]. }
    destruct H as (one & E1 & L1).
    exists (one ++ added)%list. rewrite E, E1, <- app_assoc.
    split; [reflexivity|]. rewrite length_app. cbn [length]. lia.
Qed.

(** On exact numbers a whole amount is shown with two zero decimals. *)
Lemma format_2f_whole (z : Z) : format_2f (of_int z) = str_int z ++ ".00".
Proof.
  unfold format_2f, of_int, Q2Qc. cbn [this].
  rewrite Qred_identity by (cbn; apply Z.gcd_1_r).
  cbn [Qnum Qden inject_Z]. unfold round_half_even.
  rewrite Z.div_1_r, Z.mod_1_r. cbn [Z.mul Z.ltb Z.compare].
  rewrite Z.div_mul, Z.mod_mul by discriminate.
  destruct z as [|q|q]; reflexivity.
Qed.


(** * Properties of the generated table *)

Section Columns.

Lemma existsb_str_In (x : string) (seen : list string) :
  existsb (String.eqb x) seen = true <-> In x seen.
Proof.
  rewrite existsb_exists. split.
  - intros (y & Hy & E). apply String.eqb_eq in E. now subst.
  - intro H. exists x. split; [exact H | apply String.eqb_refl].
Qed.

(** Values already met are skipped. *)
Lemma unique_str_skip (t : string) (l rest seen : list string) :
  Forall (fun x => x = t) l -> In t seen ->
  unique_str_from seen (l ++ rest) = unique_str_from seen rest.
Proof.
  intros Hl Hin. induction Hl as [|x l Hx _ IH]; [reflexivity|].
  subst x. cbn [app unique_str_from].
  rewrite (proj2 (existsb_str_In t seen) Hin). exact IH.
Qed.

(** A run of one new value contributes that value once. *)
Lemma unique_str_block (t : string) (l rest seen : list string) :
  l <> [] -> Forall (fun x => x = t) l -> ~ In t seen ->
  unique_str_from seen (l ++ rest) = t :: unique_str_from (t :: seen) rest.
Proof.
  intros Hne Hl Hnin. destruct Hl as [|x l Hx Hl]; [contradiction|].
  subst x. cbn [app unique_str_from].
  destruct (existsb (String.eqb t) seen) eqn:E.
  - apply existsb_str_In in E. contradiction.
  - f_equal. apply (unique_str_skip t); [exact Hl | now left].
Qed.

Lemma filter_comm {A} (f g : A -> bool) (l : list A) :
  filter f (filter g l) = filter g (filter f l).
Proof.
  induction l as [|x l IH]; [reflexivity|]. cbn [filter].
  destruct (f x) eqn:Ef, (g x) eqn:Eg; cbn [filter];
    rewrite ?Ef, ?Eg, IH; reflexivity.
Qed.

Lemma nth_range_from (count : nat) : forall (i : Z) (k : nat) (d : Z),
  (k < count)%nat -> nth k (range_from i count) d = i + Z.of_nat k.
Proof.
  induction count as [|count IH]; intros i k d Hk; [lia|].
  cbn [range_from]. destruct k as [|k]; cbn [nth]; [lia|].
  rewrite IH by lia. lia.
Qed.

(** The rows of one day in the frame of one ticker: none past the first
    day of the part looked at, one for a day inside it. *)
Lemma day_rows_none (t : string) (k : nat) (prices : list Qc) : forall a,
  (k < a)%nat ->
  filter (fun r => Nat.eqb (Date r) k)
    (map (fun dp => mkRow (fst dp) (snd dp) t)
         (combine (seq a (length prices)) prices)) = [].
Proof.
  induction prices as [|x prices IH]; intros a Ha; [reflexivity|].
  cbn [length seq combine map filter Date fst].
  destruct (Nat.eqb_spec a k); [lia|]. apply IH. lia.
Qed.

Lemma day_rows_one (t : string) (k : nat) (prices : list Qc) : forall a,
  (a <= k < a + length prices)%nat ->
  filter (fun r => Nat.eqb (Date r) k)
    (map (fun dp => mkRow (fst dp) (snd dp) t)
         (combine (seq a (length prices)) prices))
    = [mkRow k (nth (k - a) prices (of_int 0)) t].
Proof.
  induction prices as [|x prices IH]; intros a Ha; cbn [length] in Ha; [lia|].
  cbn [length seq combine map filter Date fst snd].
  destruct (Nat.eqb_spec a k) as [-> | Hne].
  - rewrite day_rows_none by lia. now rewrite Nat.sub_diag.
  - rewrite IH by lia.
    replace (k - a)%nat with (S (k - S a)) by lia. reflexivity.
Qed.

Lemma frame_of_day (t : string) (prices : list Qc) (k : nat) :
  (k < length prices)%nat ->
  filter (fun r => Nat.eqb (Date r) k) (frame_of t prices)
    = [mkRow k (nth k prices (of_int 0)) t].
Proof.
  intro Hk. unfold frame_of. rewrite day_rows_one by lia.
  now rewrite Nat.sub_0_r.
Qed.

(** The tickers of a list of generated frames, given the values met
    before. *)
Lemma tickers_from (num_days : Z) (floored : Prop) (idxs : list Z)
    (frames : list DataFrame) :
  Forall2 (generated_frame num_days floored) idxs frames ->
  NoDup idxs -> 0 < num_days ->
  forall seen,
    (forall j, In j idxs -> ~ In (ticker_name j) seen) ->
    unique_str_from seen (map Ticker (concat frames)) = map ticker_name idxs.
Proof.
  intros G Hnd Hd.
  induction G as [|j f js fs (prices & Hf & Hl & _) Hrest IH];
    intros seen Hseen; [reflexivity|].
  inversion Hnd as [|? ? Hnj Hnd']; subst.
  cbn [concat map]. rewrite map_app.
  rewrite (unique_str_block (ticker_name j)).
  - f_equal. apply IH; [exact Hnd'|].
    intros j' Hj' [E | Hin].
    + apply ticker_name_inj in E. subst j'. contradiction.
    + apply (Hseen j'); [now right | exact Hin].
  - intro E. apply (f_equal (@length string)) in E.
    rewrite length_map in E.
    rewrite <- (length_map Date), frame_of_Date, length_seq in E.
    cbn in E. lia.
  - apply Forall_map. exact (frame_of_Ticker (ticker_name j) prices).
  - apply Hseen. now left.
Qed.

End Columns.

Section Table.

Variables (num_days : Z) (floored : Prop) (idxs : list Z)
          (frames : list DataFrame).
Hypothesis generated :
  Forall2 (generated_frame num_days floored) idxs frames.
Hypothesis distinct : NoDup idxs.
Hypothesis some_days : 0 < num_days.

(** The tickers of the table, in order of appearance. *)
Lemma table_tickers :
  unique_str (map Ticker (concat frames)) = map ticker_name idxs.
Proof.
  unfold unique_str.
  apply (tickers_from num_days floored);
    [exact generated | exact distinct | exact some_days |].
  intros j _ [].
Qed.

(** The price of a ticker on a day, read through the selection of the day
    and then of the ticker, is the price at that position in the series of
    the ticker; and it is at least 1 when the prices are floored. *)
Lemma table_price (i : Z) (k : nat) :
  In i idxs -> (k < Z.to_nat num_days)%nat ->
  exists price,
    price_today (filter (fun r => Nat.eqb (Date r) k) (concat frames))
                (ticker_name i) = Ok price /\
    price = nth k (prices_of (concat frames) (ticker_name i)) (of_int 0) /\
    (floored -> (of_int 1 <= price)%Qc).
Proof.
  intros Hi Hk.
  destruct (filter_ticker_own num_days floored i idxs frames generated
              distinct Hi) as (prices & Hf & Hl & Hp).
  exists (nth k prices (of_int 0)).
  unfold price_today, prices_of. rewrite filter_comm, Hf.
  rewrite frame_of_day by lia. rewrite frame_of_Price. split_all; auto.
  intro Hfl. apply (proj1 (Forall_forall _ _) (Hp Hfl)).
  apply nth_In. lia.
Qed.

End Table.

(** A day of a generated table is found whatever the number of tickers,
    as long as there is one. *)
Lemma simulate_prices_table (num_days : Z) (floored : Prop) (idxs : list Z)
    (frames : list DataFrame) (day : Z) :
  Forall2 (generated_frame num_days floored) idxs frames -> idxs <> [] ->
  0 <= day < num_days ->
  simulate_prices (concat frames) day
    = Ok (filter (fun r => Nat.eqb (Date r) (Z.to_nat day)) (concat frames)).
Proof.
  intros G Hne Hday. destruct G as [|j f js fs Hf Hrest]; [contradiction|].
  apply (simulate_prices_in_range num_days floored j js f fs);
    [now constructor | exact Hday].
Qed.

(** * Properties of the game loop *)

Section Selection.

Variable n : nat.

Lemma select_ticker (sel : Z) :
  0 <= sel < Z.of_nat n ->
  np_index_str (map ticker_name (range_from 0 n)) sel = Ok (ticker_name sel).
Proof.
  intro H. unfold np_index_str. rewrite length_map, range_from_length.
  destruct (Z.leb_spec 0 sel); [|lia].
  destruct (Z.ltb_spec sel (Z.of_nat n)); [|lia].
  cbn [andb]. f_equal.
  rewrite (nth_indep _ "" (ticker_name 0))
    by (rewrite length_map, range_from_length; lia).
  rewrite map_nth, nth_range_from by lia. f_equal. lia.
Qed.

Lemma py_mod_len (a : Z) :
  (0 < n)%nat ->
  py_mod a (Z.of_nat n) = Done (a mod Z.of_nat n) /\
  0 <= a mod Z.of_nat n < Z.of_nat n.
Proof.
  intro Hn. unfold py_mod. destruct (Z.eqb_spec (Z.of_nat n) 0); [lia|].
  split; [reflexivity | apply Z.mod_pos_bound; lia].
Qed.

End Selection.

Section Highlight.

Lemma flags_none (sel : Z) (count : nat) : forall i,
  sel < i ->
  filter (fun b : bool => b) (map (fun j => j =? sel) (range_from i count))
    = [].
Proof.
  induction count as [|count IH]; intros i Hi; cbn [range_from map filter];
    [reflexivity|].
  destruct (Z.eqb_spec i sel); [lia|]. apply IH. lia.
Qed.

Lemma flags_one (sel : Z) (count : nat) : forall i,
  i <= sel < i + Z.of_nat count ->
  filter (fun b : bool => b) (map (fun j => j =? sel) (range_from i count))
    = [true].
Proof.
  induction count as [|count IH]; intros i Hi; cbn [range_from map filter];
    [lia|].
  destruct (Z.eqb_spec i sel).
  - f_equal. apply flags_none. lia.
  - apply IH. lia.
Qed.

Lemma filter_snd_flags {A} (lines : list (A * bool)) :
  length (filter (fun line => snd line) lines)
    = length (filter (fun b : bool => b) (map snd lines)).
Proof.
  induction lines as [|[a b] lines IH]; [reflexivity|].
  cbn [map filter snd]. destruct b; cbn [length]; now rewrite IH.
Qed.

End Highlight.

Section GameOnTable.

Variables (n : nat) (floored : Prop) (frames : list DataFrame).
Hypothesis generated :
  Forall2 (generated_frame 100 floored) (range_from 0 n) frames.

Let stock_data := concat frames.
Let stock_tickers := map ticker_name (range_from 0 n).

(** What every frame keeps: the selection points at a ticker and, when
    prices are floored, the portfolio satisfies its invariants. *)
Let kept (g : Game) : Prop :=
  selection_ok (Z.of_nat n) g /\ (floored -> Portfolio_inv (portfolio g)).

Lemma price_on_day (k : nat) (i : Z) :
  (k < 100)%nat -> 0 <= i < Z.of_nat n ->
  exists price,
    price_today (filter (fun r => Nat.eqb (Date r) k) stock_data)
                (ticker_name i) = Ok price /\
    price = nth k (prices_of stock_data (ticker_name i)) (of_int 0) /\
    (floored -> (of_int 1 <= price)%Qc).
Proof.
  intros Hk Hi.
  apply (table_price 100 floored (range_from 0 n) frames generated).
  - apply range_from_NoDup.
  - reflexivity.
  - apply range_from_In. lia.
  - exact Hk.
Qed.

Lemma handle_event_safe (k : nat) (g : Game) (ev : event) :
  (k < 100)%nat -> kept g ->
  exists g',
    handle_event stock_tickers
      (filter (fun r => Nat.eqb (Date r) k) stock_data) g ev = Done g' /\
    kept g' /\ current_day g' = current_day g /\
    (running g = false -> running g' = false).
Proof.
  intros Hk [Hsel Hinv]. unfold selection_ok in Hsel.
  assert (Hn : (0 < n)%nat) by lia.
  destruct ev as [|[| | | |]|]; cbn [handle_event].
  - eexists. split_all; [reflexivity | split; assumption | reflexivity | auto].
  - unfold stock_tickers. rewrite select_ticker by exact Hsel.
    cbn [of_outcome attempt_bind].
    destruct (price_on_day k (selected_stock g) Hk Hsel) as (pr & E & _ & Hp).
    rewrite E. cbn [of_outcome attempt_bind].
    eexists. split_all; [reflexivity | split | reflexivity | auto].
    + exact Hsel.
    + intro Hfl. cbn [portfolio]. apply buy_stock_inv; [lia | auto].
  - unfold stock_tickers. rewrite select_ticker by exact Hsel.
    cbn [of_outcome attempt_bind].
    destruct (price_on_day k (selected_stock g) Hk Hsel) as (pr & E & _ & Hp).
    rewrite E. cbn [of_outcome attempt_bind].
    eexists. split_all; [reflexivity | split | reflexivity | auto].
    + exact Hsel.
    + intro Hfl. cbn [portfolio]. apply sell_stock_inv; [| lia | auto].
      eapply Qclt_le_trans; [|exact (Hp Hfl)]. qc_order.
  - unfold stock_tickers. rewrite length_map, range_from_length.
    destruct (py_mod_len n (selected_stock g + 1) Hn) as [E B].
    rewrite E. cbn [attempt_bind].
    eexists. split_all; [reflexivity | split; auto | reflexivity | auto].
  - unfold stock_tickers. rewrite length_map, range_from_length.
    destruct (py_mod_len n (selected_stock g - 1) Hn) as [E B].
    rewrite E. cbn [attempt_bind].
    eexists. split_all; [reflexivity | split; auto | reflexivity | auto].
  - exists g. split_all; [reflexivity | split; assumption | reflexivity | auto].
  - exists g. split_all; [reflexivity | split; assumption | reflexivity | auto].
Qed.

Lemma handle_events_safe (k : nat) (events : list event) : forall g,
  (k < 100)%nat -> kept g ->
  exists g',
    handle_events stock_tickers
      (filter (fun r => Nat.eqb (Date r) k) stock_data) g events = Done g' /\
    kept g' /\ current_day g' = current_day g /\
    (running g = false \/ In QUIT events -> running g' = false).
Proof.
  induction events as [|ev events IH]; intros g Hk Hg; cbn [handle_events].
  - exists g. split_all; auto. intros [H | []]. exact H.
  - destruct (handle_event_safe k g ev Hk Hg) as (g1 & E1 & K1 & D1 & R1).
    rewrite E1. cbn [attempt_bind].
    destruct (IH g1 Hk K1) as (g2 & E2 & K2 & D2 & R2).
    exists g2. split_all; [exact E2 | exact K2 | congruence |].
    intros [H | [-> | Hin]]; apply R2; auto.
    left. cbn [handle_event] in E1. injection E1 as <-. reflexivity.
Qed.

Lemma draw_prices_safe (k : nat) (selected : Z) (count : nat) :
  forall (i : Z),
  (k < 100)%nat -> 0 <= i -> i + Z.of_nat count <= Z.of_nat n ->
  exists lines,
    draw_prices (filter (fun r => Nat.eqb (Date r) k) stock_data) selected i
      (map ticker_name (range_from i count)) = Done lines /\
    map snd lines = map (fun j => j =? selected) (range_from i count).
Proof.
  induction count as [|count IH]; intros i Hk Hi Hcount;
    cbn [range_from map draw_prices].
  - exists []. now split.
  - destruct (price_on_day k i Hk) as (pr & E & _); [lia|].
    rewrite E. cbn [of_outcome attempt_bind].
    destruct (IH (i + 1) Hk) as (lines & El & Hl); [lia | lia |].
    rewrite El. cbn [attempt_bind]. eexists. split; [reflexivity|].
    cbn [map snd]. now rewrite Hl.
Qed.

Lemma frame_safe (g : Game) (events : list event) :
  kept g ->
  exists g' display,
    frame stock_data stock_tickers g events = Done (g', display) /\
    kept g' /\ current_day g' = current_day g + 1 /\
    (running g = false \/ In QUIT events -> running g' = false) /\
    map snd (price_lines display)
      = map (fun j => j =? selected_stock g') (range_from 0 n).
Proof.
  intros Hg. unfold frame.
  assert (Hn : (0 < n)%nat)
    by (destruct Hg as [Hs _]; unfold selection_ok in Hs; lia).
  assert (Hday : 0 <= current_day g mod 100 < 100)
    by (apply Z.mod_pos_bound; lia).
  unfold stock_data at 1.
  rewrite (simulate_prices_table 100 floored _ _ _ generated);
    [| intro E; apply (f_equal (@length Z)) in E;
       rewrite range_from_length in E; cbn in E; lia
     | exact Hday ].
  cbn [of_outcome attempt_bind].
  destruct (handle_events_safe (Z.to_nat (current_day g mod 100)) events g)
    as (g1 & E1 & K1 & D1 & R1); [lia | exact Hg |].
  unfold stock_data in E1. rewrite E1. cbn [attempt_bind].
  destruct (draw_prices_safe (Z.to_nat (current_day g mod 100))
              (selected_stock g1) n 0) as (lines & El & Hl); [lia | lia | lia |].
  unfold stock_tickers, stock_data in *. rewrite El. cbn [attempt_bind].
  eexists _, _. split_all; [reflexivity | | | |].
  - destruct K1 as [Hs Hi]. split; [exact Hs | exact Hi].
  - cbn [current_day]. lia.
  - exact R1.
  - cbn [price_lines selected_stock]. exact Hl.
Qed.

Lemma frame_display (g : Game) (display : Display) :
  kept g ->
  map snd (price_lines display)
    = map (fun j => j =? selected_stock g) (range_from 0 n) ->
  one_highlighted n display.
Proof.
  intros [Hsel _] H. unfold selection_ok in Hsel. split.
  - rewrite <- (length_map snd), H, length_map. apply range_from_length.
  - rewrite filter_snd_flags, H, flags_one by lia. reflexivity.
Qed.

Lemma play_safe (inputs : list (list event)) : forall g,
  kept g ->
  exists g' displays,
    play stock_data stock_tickers g inputs = Done (g', displays) /\
    kept g' /\
    current_day g' = current_day g + Z.of_nat (length displays) /\
    (length displays <= length inputs)%nat /\
    Forall (one_highlighted n) displays.
Proof.
  induction inputs as [|events inputs IH]; intros g Hg.
  - exists g, []. cbn [play].
    destruct (running g); split_all; auto; cbn; lia.
  - cbn [play]. destruct (running g).
    + destruct (frame_safe g events Hg) as (g1 & d & E1 & K1 & D1 & _ & Hd).
      rewrite E1. cbn [attempt_bind fst snd].
      destruct (IH g1 K1) as (g2 & ds & E2 & K2 & D2 & L2 & F2).
      rewrite E2. cbn [attempt_bind fst snd].
      exists g2, (d :: ds).
      split_all; [reflexivity | exact K2 | | cbn; lia |].
      * cbn [length]. lia.
      * constructor; [|exact F2]. now apply (frame_display g1).
    + exists g, []. split_all; auto; cbn; lia.
Qed.


End GameOnTable.

Section GameLoop.

Variable s : RNG.

(** The table the game generates, its tickers and the first state. *)
Lemma game_table :
  exists frames s',
    generate_realistic_stock_data 5 100 s = (Ok (concat frames), s') /\
    Forall2 (generated_frame 100 (rng_ok s)) (range_from 0 5) frames /\
    unique_str (map Ticker (concat frames)) = map ticker_name (range_from 0 5).
Proof.
  destruct (generate_ok 5 100 s eq_refl eq_refl) as (frames & s' & E & G).
  change (Z.to_nat 5) with 5%nat in G.
  exists frames, s'. split_all; [exact E | exact G |].
  apply (table_tickers 100 (rng_ok s) _ _ G);
    [apply range_from_NoDup | reflexivity].
Qed.

Lemma game_start_kept :
  selection_ok (Z.of_nat 5) game_start /\
  (rng_ok s -> Portfolio_inv (portfolio game_start)).
Proof.
  split; [unfold selection_ok; cbn; lia|].
  intros _. apply Portfolio_init_inv. qc_order.
Qed.

Lemma game_loop_kept (inputs : list (list event)) :
  exists g displays,
    game_loop s inputs = Done (g, displays) /\
    selection_ok 5 g /\
    (rng_ok s -> Portfolio_inv (portfolio g)) /\
    current_day g = Z.of_nat (length displays) /\
    (length displays <= length inputs)%nat /\
    Forall (one_highlighted 5) displays.
Proof.
  destruct game_table as (frames & s' & E & G & T).
  unfold game_loop. rewrite E. cbn [fst of_outcome attempt_bind]. rewrite T.
  destruct (play_safe 5 (rng_ok s) frames G inputs game_start game_start_kept)
    as (g & ds & Ep & [Hs Hi] & Hd & Hl & Hf).
  exists g, ds. split_all; auto.
Qed.

End GameLoop.

(** X10. With the table it generates (5 tickers, 100 days) the game loop
    never raises: whatever the state of the random generators and whatever
    events arrive in whatever frames, every lookup of a day, of the selected
    ticker and of its price succeeds. After the frames played the day
    counter equals their number and the selection points at one of the 5
    tickers. *)
Theorem game_loop_never_raises (s : RNG) (inputs : list (list event)) :
  exists g displays,
    game_loop s inputs = Done (g, displays) /\
    0 <= selected_stock g < 5 /\
    current_day g = Z.of_nat (length displays) /\
    (length displays <= length inputs)%nat.
Proof.
  destruct (game_loop_kept s inputs) as (g & ds & E & Hs & _ & Hd & Hl & _).
  exists g, ds. exact (conj E (conj Hs (conj Hd Hl))).
Qed.

(** X11. Playing never drives the cash or a share count below zero: when
    the draws of [random.random()] lie in [[0, 1)], the portfolio at the end
    of any run of the game loop has non-negative cash and non-negative
    holdings. *)
Theorem game_loop_keeps_invariants (s : RNG) (inputs : list (list event)) :
  rng_ok s ->
  exists g displays,
    game_loop s inputs = Done (g, displays) /\
    Portfolio_inv (portfolio g).
Proof.
  intro Hok.
  destruct (game_loop_kept s inputs) as (g & ds & E & _ & Hi & _).
  exists g, ds. split; [exact E | exact (Hi Hok)].
Qed.

Lemma game_loop_keeps_invariants_witness :
  rng_ok (const_rng (of_int (-1000))) /\
  exists g displays,
    game_loop (const_rng (of_int (-1000)))
      [[KEYDOWN K_b; KEYDOWN K_RIGHT]; [KEYDOWN K_s; KEYDOWN K_b]]
      = Done (g, displays) /\
    Portfolio_inv (portfolio g).
Proof.
  assert (Hok : rng_ok (const_rng (of_int (-1000))))
    by (intro k; split; qc_order).
  split; [exact Hok|].
  exact (game_loop_keeps_invariants _ _ Hok).
Defined.





(** * Further properties of the table and of the day lookup *)

Section DayRows.

Variables (num_days : Z) (floored : Prop).

(** A day of a generated table has one row per ticker, in ticker order. *)
Lemma day_tickers (k : nat) (idxs : list Z) (frames : list DataFrame) :
  Forall2 (generated_frame num_days floored) idxs frames ->
  (k < Z.to_nat num_days)%nat ->
  map Ticker (filter (fun r => Nat.eqb (Date r) k) (concat frames))
    = map ticker_name idxs.
Proof.
  intros G Hk.
  induction G as [|j f js fs (prices & Hf & Hl & _) _ IH]; [reflexivity|].
  cbn [concat map]. rewrite filter_app, map_app, IH. subst f.
  rewrite frame_of_day by lia. reflexivity.
Qed.

End DayRows.

Section AnyTable.

Lemma unique_from_In (l : list nat) : forall seen x,
  In x (unique_from seen l) -> In x l.
Proof.
  induction l as [|y l IH]; intros seen x H; [contradiction|].
  cbn [unique_from] in H. destruct (existsb (Nat.eqb y) seen).
  - right. exact (IH _ _ H).
  - destruct H as [-> | H]; [now left | right; exact (IH _ _ H)].
Qed.

(** Indexing succeeds exactly between [-len] and [len - 1], and then
    returns an element of the array. *)
Lemma np_index_bounds (arr : list nat) (i : Z) :
  let len := Z.of_nat (length arr) in
  (- len <= i < len -> exists x, np_index arr i = Ok x /\ In x arr) /\
  (i < - len \/ len <= i -> np_index arr i = Raise IndexError).
Proof.
  intro len. unfold np_index. fold len. split.
  - intro H. destruct (Z.leb_spec 0 i); destruct (Z.ltb_spec i len);
      cbn [andb]; try lia.
    + eexists. split; [reflexivity|]. apply nth_In. lia.
    + destruct (Z.leb_spec (- len) i); destruct (Z.ltb_spec i 0);
        cbn [andb]; try lia.
      eexists. split; [reflexivity|]. apply nth_In. lia.
  - intro H. destruct (Z.leb_spec 0 i); destruct (Z.ltb_spec i len);
      cbn [andb]; try lia;
      destruct (Z.leb_spec (- len) i); destruct (Z.ltb_spec i 0);
      cbn [andb]; try lia; reflexivity.
Qed.

Lemma np_index_seq_neg (len : nat) (k : Z) :
  1 <= k <= Z.of_nat len ->
  np_index (seq 0 len) (- k) = Ok (Z.to_nat (Z.of_nat len - k)).
Proof.
  intro H. unfold np_index. rewrite length_seq.
  destruct (Z.leb_spec 0 (- k)); [lia|]. cbn [andb].
  destruct (Z.leb_spec (- Z.of_nat len) (- k)); [|lia].
  destruct (Z.ltb_spec (- k) 0); [|lia]. cbn [andb].
  rewrite seq_nth by lia. reflexivity.
Qed.

End AnyTable.

(** X14. The tickers of a generated table, read as the game loop reads
    them ([Ticker.unique()]), are "Stock 1", ..., "Stock num_stocks", each
    once and in that order. *)
Theorem generated_tickers (num_stocks num_days : Z) (s : RNG) :
  0 < num_stocks -> 0 < num_days ->
  exists df s',
    generate_realistic_stock_data num_stocks num_days s = (Ok df, s') /\
    unique_str (map Ticker df)
      = map ticker_name (range_from 0 (Z.to_nat num_stocks)).
Proof.
  intros Hn Hd.
  destruct (generate_ok num_stocks num_days s Hn Hd) as (frames & s' & E & G).
  exists (concat frames), s'. split; [exact E|].
  apply (table_tickers num_days (rng_ok s) _ _ G);
    [apply range_from_NoDup | exact Hd].
Qed.

Lemma generated_tickers_witness :
  0 < 3 /\ 0 < 2 /\
  exists df s',
    generate_realistic_stock_data 3 2 (const_rng (of_int 0)) = (Ok df, s') /\
    unique_str (map Ticker df) = ["Stock 1"; "Stock 2"; "Stock 3"].
Proof.
  assert (Hn : 0 < 3) by lia.
  assert (Hd : 0 < 2) by lia.
  split_all; [exact Hn | exact Hd |].
  exact (generated_tickers 3 2 (const_rng (of_int 0)) Hn Hd).
Defined.

(** X15. On a generated table, looking a day up and then the price of a
    ticker in it, as the game loop does, always succeeds for a day and a
    ticker of the table: the rows of the day are one per ticker in ticker
    order, and the price found is the price at that day's position in the
    series of the ticker. *)
Theorem price_lookup_on_generated_table (num_stocks num_days : Z) (s : RNG) :
  0 < num_stocks -> 0 < num_days ->
  exists df s',
    generate_realistic_stock_data num_stocks num_days s = (Ok df, s') /\
    forall day i, 0 <= day < num_days -> 0 <= i < num_stocks ->
      exists today,
        simulate_prices df day = Ok today /\
        map Ticker today
          = map ticker_name (range_from 0 (Z.to_nat num_stocks)) /\
        Forall (fun r => Date r = Z.to_nat day) today /\
        price_today today (ticker_name i)
          = Ok (nth (Z.to_nat day) (prices_of df (ticker_name i)) (of_int 0)).
Proof.
  intros Hn Hd.
  destruct (generate_ok num_stocks num_days s Hn Hd) as (frames & s' & E & G).
  exists (concat frames), s'. split; [exact E|].
  intros day i Hday Hi. eexists. split_all.
  - apply (simulate_prices_table num_days (rng_ok s) _ _ _ G); [|exact Hday].
    intro H. apply (f_equal (@length Z)) in H.
    rewrite range_from_length in H. cbn in H. lia.
  - apply (day_tickers num_days (rng_ok s) _ _ _ G). lia.
  - apply Forall_forall. intros r Hr. apply filter_In in Hr.
    destruct Hr as [_ Hr]. now apply Nat.eqb_eq in Hr.
  - destruct (table_price num_days (rng_ok s) _ _ G (range_from_NoDup _ 0) Hd
                i (Z.to_nat day)) as (pr & Ep & -> & _);
      [apply range_from_In; lia | lia | exact Ep].
Qed.

Lemma price_lookup_on_generated_table_witness :
  0 < 2 /\ 0 < 3 /\
  exists df s',
    generate_realistic_stock_data 2 3 (const_rng (of_int 0)) = (Ok df, s') /\
    forall day i, 0 <= day < 3 -> 0 <= i < 2 ->
      exists today,
        simulate_prices df day = Ok today /\
        map Ticker today = ["Stock 1"; "Stock 2"] /\
        Forall (fun r => Date r = Z.to_nat day) today /\
        price_today today (ticker_name i)
          = Ok (nth (Z.to_nat day) (prices_of df (ticker_name i)) (of_int 0)).
Proof.
  assert (Hn : 0 < 2) by lia.
  assert (Hd : 0 < 3) by lia.
  split_all; [exact Hn | exact Hd |].
  exact (price_lookup_on_generated_table 2 3 (const_rng (of_int 0)) Hn Hd).
Defined.

(** X16. For any table, [simulate_prices] succeeds exactly for the day
    indices from [-D] to [D - 1], where [D] is the number of distinct dates
    of the table, and raises an index error for every other index; so on an
    empty table it always raises. When it succeeds, the rows returned are not
    empty and all carry the same date. *)
Theorem simulate_prices_bounds (df : DataFrame) (day : Z) :
  let D := Z.of_nat (length (unique (map Date df))) in
  (- D <= day < D ->
   exists today d,
     simulate_prices df day = Ok today /\ today <> [] /\
     Forall (fun r => Date r = d) today) /\
  (day < - D \/ D <= day -> simulate_prices df day = Raise IndexError).
Proof.
  intro D. unfold simulate_prices.
  destruct (np_index_bounds (unique (map Date df)) day) as [Hin Hout].
  fold D in Hin, Hout. split.
  - intro H. destruct (Hin H) as (d & E & Hd). rewrite E.
    eexists _, d. split_all; [reflexivity | |].
    + apply unique_from_In, in_map_iff in Hd. destruct Hd as (r & Er & Hr).
      intro Hnil.
      assert (Hf : In r (filter (fun r => Nat.eqb (Date r) d) df))
        by (apply filter_In; split; [exact Hr | now apply Nat.eqb_eq]).
      rewrite Hnil in Hf. exact Hf.
    + apply Forall_forall. intros r Hr. apply filter_In in Hr.
      destruct Hr as [_ Hr]. now apply Nat.eqb_eq in Hr.
  - intro H. now rewrite (Hout H).
Qed.

Lemma simulate_prices_bounds_witness :
  simulate_prices [] 0 = Raise IndexError /\
  simulate_prices [mkRow 0 (of_int 7) "Stock 1"] 1 = Raise IndexError.
Proof.
  split.
  - apply (simulate_prices_bounds [] 0). right. cbn. lia.
  - apply (simulate_prices_bounds [mkRow 0 (of_int 7) "Stock 1"] 1).
    right. cbn. lia.
Defined.

(** X17. A negative day index counts from the end of the table: on a
    generated table of [num_days] days, [simulate_prices] at [-k], for [k]
    from 1 to [num_days], returns the rows of day [num_days - k]. *)
Theorem simulate_prices_negative_day (num_stocks num_days : Z) (s : RNG)
    (k : Z) :
  0 < num_stocks -> 1 <= k <= num_days ->
  exists df s',
    generate_realistic_stock_data num_stocks num_days s = (Ok df, s') /\
    simulate_prices df (- k) = simulate_prices df (num_days - k) /\
    simulate_prices df (- k)
      = Ok (filter (fun r => Nat.eqb (Date r) (Z.to_nat (num_days - k))) df).
Proof.
  intros Hn Hk.
  destruct (generate_ok num_stocks num_days s Hn) as (frames & s' & E & G);
    [lia|].
  exists (concat frames), s'. split; [exact E|].
  assert (Hne : range_from 0 (Z.to_nat num_stocks) <> []).
  { intro H. apply (f_equal (@length Z)) in H.
    rewrite range_from_length in H. cbn in H. lia. }
  rewrite (simulate_prices_table num_days (rng_ok s) _ _ (num_days - k) G Hne)
    by lia.
  assert (H : simulate_prices (concat frames) (- k)
              = Ok (filter (fun r => Nat.eqb (Date r) (Z.to_nat (num_days - k)))
                      (concat frames))).
  { destruct G as [|j f js fs Hf Hrest]; [contradiction|].
    unfold simulate_prices.
    rewrite (unique_dates num_days (rng_ok s) j js f fs) by now constructor.
    rewrite np_index_seq_neg by lia.
    replace (Z.of_nat (Z.to_nat num_days) - k) with (num_days - k) by lia.
    reflexivity. }
  split; exact H.
Qed.

Lemma simulate_prices_negative_day_witness :
  0 < 1 /\ 1 <= 1 <= 3 /\
  exists df s',
    generate_realistic_stock_data 1 3 (const_rng (of_int 0)) = (Ok df, s') /\
    simulate_prices df (- 1) = simulate_prices df (3 - 1) /\
    simulate_prices df (- 1)
      = Ok (filter (fun r => Nat.eqb (Date r) (Z.to_nat (3 - 1))) df).
Proof.
  assert (Hn : 0 < 1) by lia.
  assert (Hk : 1 <= 1 <= 3) by lia.
  split; [exact Hn | split; [exact Hk |]].
  exact (simulate_prices_negative_day 1 3 (const_rng (of_int 0)) 1 Hn Hk).
Defined.

(** X18. The selection wraps around in both directions. With the selection
    pointing at one of the tickers, the right key moves it to the next
    ticker and from the last one to the first, the left key moves it to the
    previous ticker and from the first one to the last, nothing else
    changes, and the two keys undo each other. *)
Theorem selection_wraps (stock_tickers : list string) (stock_today : DataFrame)
    (g : Game) :
  let n := Z.of_nat (length stock_tickers) in
  0 <= selected_stock g < n ->
  handle_event stock_tickers stock_today g (KEYDOWN K_RIGHT)
    = Done (mkGame (running g) (portfolio g) (current_day g) (message g)
              (if selected_stock g + 1 =? n then 0 else selected_stock g + 1)) /\
  handle_event stock_tickers stock_today g (KEYDOWN K_LEFT)
    = Done (mkGame (running g) (portfolio g) (current_day g) (message g)
              (if selected_stock g =? 0 then n - 1 else selected_stock g - 1)) /\
  handle_events stock_tickers stock_today g [KEYDOWN K_RIGHT; KEYDOWN K_LEFT]
    = Done g /\
  handle_events stock_tickers stock_today g [KEYDOWN K_LEFT; KEYDOWN K_RIGHT]
    = Done g.
Proof.
  intros n Hsel. cbn [handle_events handle_event]. fold n.
  unfold py_mod. destruct (Z.eqb_spec n 0) as [E0 | _]; [lia|].
  cbn [attempt_bind selected_stock running portfolio current_day message].
  destruct (Z.eqb_spec n 0) as [E0 | _]; [lia|]. cbn [attempt_bind].
  split_all.
  - do 2 f_equal. destruct (Z.eqb_spec (selected_stock g + 1) n) as [-> | Hne].
    + apply Z_mod_same_full.
    + apply Z.mod_small. lia.
  - do 2 f_equal. destruct (Z.eqb_spec (selected_stock g) 0) as [-> | Hne].
    + symmetry. apply (Z.mod_unique _ _ (-1)); lia.
    + apply Z.mod_small. lia.
  - rewrite Zminus_mod_idemp_l.
    replace (selected_stock g + 1 - 1) with (selected_stock g) by lia.
    rewrite Z.mod_small by lia. now destruct g.
  - rewrite Zplus_mod_idemp_l.
    replace (selected_stock g - 1 + 1) with (selected_stock g) by lia.
    rewrite Z.mod_small by lia. now destruct g.
Qed.

Lemma selection_wraps_witness :
  0 <= selected_stock (mkGame true (Portfolio_init (of_int 10000)) 0 "" 2)
    < Z.of_nat (length ["Stock 1"; "Stock 2"; "Stock 3"]) /\
  handle_event ["Stock 1"; "Stock 2"; "Stock 3"] []
    (mkGame true (Portfolio_init (of_int 10000)) 0 "" 2) (KEYDOWN K_RIGHT)
    = Done (mkGame true (Portfolio_init (of_int 10000)) 0 "" 0).
Proof.
  assert (H : 0 <= selected_stock
                     (mkGame true (Portfolio_init (of_int 10000)) 0 "" 2)
              < Z.of_nat (length ["Stock 1"; "Stock 2"; "Stock 3"]))
    by (cbn; lia).
  split; [exact H|].
  exact (proj1 (selection_wraps ["Stock 1"; "Stock 2"; "Stock 3"] []
                  (mkGame true (Portfolio_init (of_int 10000)) 0 "" 2) H)).
Defined.

(** * Further properties of the price generator *)

Section Draws.

Lemma price_walk_state (n : nat) : forall (prices : list Qc) (s : RNG),
  snd (price_walk n prices s)
    = mkRNG (random_draws s) (random_pos s) (normal_draws s)
        (n + normal_pos s).
Proof.
  induction n as [|n IH]; intros prices s.
  - cbn. now destruct s.
  - cbn [price_walk]. unfold bind at 1. cbn [np_random_normal].
    rewrite IH. cbn [random_draws random_pos normal_draws normal_pos].
    f_equal. lia.
Qed.

Lemma stock_frame_state (num_days i : Z) (s : RNG) :
  0 < num_days ->
  snd (stock_frame num_days i s)
    = mkRNG (random_draws s) (S (random_pos s)) (normal_draws s)
        (Z.to_nat (num_days - 1) + normal_pos s).
Proof.
  intro Hd. destruct (stock_frame_ok num_days i s Hd) as (f & s' & E & _).
  unfold stock_frame, random_uniform, bind, pd_date_range in *.
  destruct (Z.ltb_spec num_days 0); [lia|].
  cbn [lift random_random ret] in *.
  match goal with
  | _ : context [price_walk ?n ?l ?t] |- _ =>
      pose proof (price_walk_state n l t) as Hs;
      destruct (price_walk n l t) as [[prices | e] s1]
  end; [|discriminate].
  cbn [snd] in Hs. subst s1. unfold lift in *.
  cbn [snd random_draws random_pos normal_draws normal_pos]. reflexivity.
Qed.

Lemma stock_loop_state (num_days : Z) (Hd : 0 < num_days) (count : nat) :
  forall (i : Z) (stocks : list DataFrame) (s : RNG),
  snd (stock_loop num_days count i stocks s)
    = mkRNG (random_draws s) (count + random_pos s) (normal_draws s)
        (count * Z.to_nat (num_days - 1) + normal_pos s).
Proof.
  induction count as [|count IH]; intros i stocks s.
  - cbn. now destruct s.
  - cbn [stock_loop]. unfold bind.
    pose proof (stock_frame_state num_days i s Hd) as Hs.
    destruct (stock_frame_ok num_days i s Hd) as (f & s1 & E & _).
    rewrite E in Hs |- *. cbn [snd] in Hs. subst s1.
    rewrite IH. cbn [random_draws random_pos normal_draws normal_pos].
    f_equal; lia.
Qed.

End Draws.

(** X19. A call of the generator with positive arguments draws exactly
    [num_stocks] numbers from [random] and [num_stocks * (num_days - 1)]
    numbers from [numpy.random], and changes nothing else in the state of
    the two generators; a second call in the same process therefore
    continues from the draws that follow. *)
Theorem generator_consumes_draws (num_stocks num_days : Z) (s : RNG) :
  0 < num_stocks -> 0 < num_days ->
  let s' := snd (generate_realistic_stock_data num_stocks num_days s) in
  random_draws s' = random_draws s /\
  normal_draws s' = normal_draws s /\
  Z.of_nat (random_pos s') = Z.of_nat (random_pos s) + num_stocks /\
  Z.of_nat (normal_pos s')
    = Z.of_nat (normal_pos s) + num_stocks * (num_days - 1).
Proof.
  intros Hn Hd s'. subst s'. unfold generate_realistic_stock_data, bind.
  pose proof (stock_loop_state num_days Hd (Z.to_nat num_stocks) 0 [] s) as Hs.
  destruct (stock_loop_ok num_days Hd (Z.to_nat num_stocks) 0 [] s)
    as (frames & s1 & E & _).
  rewrite E in Hs |- *. cbn [snd] in Hs. subst s1. unfold lift.
  cbn [snd random_draws random_pos normal_draws normal_pos].
  split_all; [reflexivity | reflexivity | lia | nia].
Qed.

Lemma generator_consumes_draws_witness :
  0 < 2 /\ 0 < 3 /\
  random_pos (snd (generate_realistic_stock_data 2 3 (const_rng (of_int 0))))
    = 2%nat /\
  normal_pos (snd (generate_realistic_stock_data 2 3 (const_rng (of_int 0))))
    = 4%nat.
Proof.
  assert (Hn : 0 < 2) by lia.
  assert (Hd : 0 < 3) by lia.
  destruct (generator_consumes_draws 2 3 (const_rng (of_int 0)) Hn Hd)
    as (_ & _ & Hr & Hp).
  cbn [const_rng random_pos normal_pos] in Hr, Hp.
  split_all; [exact Hn | exact Hd | lia | lia].
Defined.

Section Opening.

Lemma uniform_band (u : Qc) :
  (0 <= u)%Qc -> (u < 1)%Qc ->
  (of_int 50 <= of_int 50 + (of_int 150 - of_int 50) * u)%Qc /\
  (of_int 50 + (of_int 150 - of_int 50) * u < of_int 150)%Qc.
Proof.
  unfold Qcle, Qclt, of_int, Qcminus. unfold Qcplus, Qcmult, Qcopp, Q2Qc.
  cbn [this]. rewrite !Qred_correct. unfold inject_Z.
  intros H0 H1. split; lra.
Qed.

(** The frame of a ticker opens with the uniform draw. *)
Lemma stock_frame_opening (num_days i : Z) (s : RNG) :
  0 < num_days -> rng_ok s ->
  exists f s',
    stock_frame num_days i s = (Ok f, s') /\
    opening_in_band (map Price f).
Proof.
  intros Hd Hok. unfold stock_frame, random_uniform, bind, pd_date_range.
  destruct (Z.ltb_spec num_days 0); [lia|].
  cbn [lift random_random ret].
  match goal with
  | |- context [price_walk ?n [?x] ?t] =>
      destruct (price_walk_spec n [x] t) as (tail & s' & E & L & _ & _);
      set (init := x) in *
  end.
  rewrite E. unfold lift, pd_DataFrame.
  assert (Hlen : length ([init] ++ tail)%list = Z.to_nat num_days).
  { cbn [app length]. rewrite L. lia. }
  rewrite length_seq, Hlen, Nat.eqb_refl.
  eexists _, s'. split; [reflexivity|].
  rewrite <- Hlen. fold (frame_of (ticker_name i) ([init] ++ tail)%list).
  rewrite frame_of_Price. exists init, tail. split; [reflexivity|].
  destruct (Hok (random_pos s)) as [H0 H1].
  destruct (uniform_band _ H0 H1) as [Hlow Hup].
  split; [exact Hlow | now apply Qclt_le_weak].
Qed.

Lemma stock_loop_opening (num_days : Z) (Hd : 0 < num_days) (count : nat) :
  forall (i : Z) (stocks : list DataFrame) (s : RNG),
  rng_ok s ->
  Forall (fun f => opening_in_band (map Price f)) stocks ->
  exists all s',
    stock_loop num_days count i stocks s = (Ok all, s') /\
    Forall (fun f => opening_in_band (map Price f)) all.
Proof.
  induction count as [|count IH]; intros i stocks s Hok Hst.
  - exists stocks, s. now split.
  - cbn [stock_loop]. unfold bind.
    destruct (stock_frame_opening num_days i s Hd Hok) as (f & s1 & E & Hf).
    pose proof (stock_frame_state num_days i s Hd) as Hs.
    rewrite E in Hs |- *. cbn [snd] in Hs.
    apply IH.
    + apply (rng_ok_ext s); [now subst s1 | exact Hok].
    + apply Forall_app. split; [exact Hst | now constructor].
Qed.

(** A property of every frame holds of the rows selected for a ticker. *)
Lemma filter_ticker_frame (num_days : Z) (floored : Prop)
    (P : DataFrame -> Prop) (i : Z) (idxs : list Z)
    (frames : list DataFrame) :
  Forall2 (generated_frame num_days floored) idxs frames ->
  NoDup idxs -> In i idxs -> Forall P frames ->
  P (filter (fun r => String.eqb (Ticker r) (ticker_name i)) (concat frames)).
Proof.
  induction 1 as [|j f idxs frames (prices & Hf & Hl & Hp) Hrest IH];
    intros Hnd Hin HP; [contradiction|].
  inversion Hnd as [|? ? Hnj Hnd']; subst.
  inversion HP as [|? ? Pf Prest]; subst.
  cbn [concat]. rewrite filter_app. destruct Hin as [-> | Hin].
  - rewrite (filter_ticker_others num_days floored i idxs frames Hrest Hnj).
    now rewrite app_nil_r, filter_frame_own.
  - rewrite filter_frame_other by (intros ->; contradiction).
    now apply IH.
Qed.

End Opening.

(** X20. Every ticker opens inside the starting band: when the draws of
    [random.random()] lie in [[0, 1)], the first price of each generated
    series is at least 50 and at most 150. *)
Theorem opening_price_band (num_stocks num_days : Z) (s : RNG) :
  0 < num_stocks -> 0 < num_days -> rng_ok s ->
  exists df s',
    generate_realistic_stock_data num_stocks num_days s = (Ok df, s') /\
    forall i, 0 <= i < num_stocks ->
      opening_in_band (prices_of df (ticker_name i)).
Proof.
  intros Hn Hd Hok.
  destruct (stock_loop_ok num_days Hd (Z.to_nat num_stocks) 0 [] s)
    as (frames & s' & E & _ & G).
  destruct (stock_loop_opening num_days Hd (Z.to_nat num_stocks) 0 [] s Hok)
    as (all & s1 & E1 & Hall); [constructor|].
  rewrite E in E1. cbn [app] in E, E1. injection E1 as <- <-.
  exists (concat frames), s'. split.
  - unfold generate_realistic_stock_data, bind. rewrite E.
    destruct frames as [|f frames]; [|reflexivity].
    inversion G as [Hnil|]. exfalso.
    apply (f_equal (@length Z)) in Hnil.
    rewrite range_from_length in Hnil. cbn in Hnil. lia.
  - intros i Hi. unfold prices_of.
    apply (filter_ticker_frame num_days (rng_ok s)
             (fun f => opening_in_band (map Price f)) i _ _ G).
    + apply range_from_NoDup.
    + apply range_from_In. lia.
    + exact Hall.
Qed.

Lemma opening_price_band_witness :
  0 < 2 /\ 0 < 3 /\ rng_ok (const_rng (of_int (-1000))) /\
  exists df s',
    generate_realistic_stock_data 2 3 (const_rng (of_int (-1000)))
      = (Ok df, s') /\
    forall i, 0 <= i < 2 -> opening_in_band (prices_of df (ticker_name i)).
Proof.
  assert (Hn : 0 < 2) by lia.
  assert (Hd : 0 < 3) by lia.
  assert (Hok : rng_ok (const_rng (of_int (-1000))))
    by (intro k; split; qc_order).
  split_all; [exact Hn | exact Hd | exact Hok |].
  exact (opening_price_band 2 3 _ Hn Hd Hok).
Defined.

(** On floats the upper end of the band is reached: for the largest draw
    below one, [1 - 2 ** -53], [random.uniform(50, 150)] is 150.0. *)
Example uniform_reaches_upper_end :
  Py.uniform (binary_normalize Py.prec Py.emax 50 0 false)
             (binary_normalize Py.prec Py.emax 150 0 false)
             (S754_finite false (2 ^ 53 - 1) (-53))
    = binary_normalize Py.prec Py.emax 150 0 false.
Proof. vm_compute. reflexivity. Qed.


(** * Properties of the ledger on Python's numbers *)

Section PyNumbers.


Lemma num_le_int (a b : Z) : Py.num_le (Py.Int a) (Py.Int b) = (a <=? b).
Proof.
  unfold Py.num_le, Py.num_compare, Z.leb. now destruct (a ?= b).
Qed.

(** A buy whose cost is covered: the new state is the same whether or not
    the message can then be formatted. *)
Lemma py_buy_applied (p : Py.Portfolio) (ticker : string) (price : Py.num)
    (quantity : Z) (total_cost new_balance : Py.num) :
  Py.num_mul price (Py.Int quantity) = Some total_cost ->
  Py.num_le total_cost (Py.balance p) = true ->
  Py.num_sub (Py.balance p) total_cost = Some new_balance ->
  fst (Py.buy_stock p ticker price quantity)
    <> Py.Returns InsufficientFunds /\
  snd (Py.buy_stock p ticker price quantity)
    = Py.mkPortfolio new_balance
        (dict_set (Py.stocks p) ticker (Py.holdings p ticker + quantity))
        (Py.transaction_history p ++ [(ticker, Buy, quantity, price)]).
Proof.
  intros Hm Hl Hs. unfold Py.buy_stock. rewrite Hm, Hl, Hs.
  destruct (Py.format_2f price); cbn [fst snd]; split;
    try reflexivity; try discriminate.
Qed.

(** A sell that passes the test on the holdings debits them, whatever
    happens on the lines that follow. *)
Lemma py_sell_debits (p : Py.Portfolio) (ticker : string) (price : Py.num)
    (quantity held : Z) :
  dict_lookup (Py.stocks p) ticker = Some held -> quantity <= held ->
  fst (Py.sell_stock p ticker price quantity)
    <> Py.Returns InsufficientShares /\
  Py.stocks (snd (Py.sell_stock p ticker price quantity))
    = dict_set (Py.stocks p) ticker (held - quantity).
Proof.
  intros Hl Hq. unfold Py.sell_stock, dict_contains, dict_item, dict_get.
  rewrite Hl. apply Z.leb_le in Hq. rewrite Hq. cbn [andb].
  destruct (Py.num_mul price (Py.Int quantity)) as [proceeds|];
    [|split; [discriminate | reflexivity]].
  destruct (Py.num_add (Py.balance p) proceeds) as [nb|];
    [|split; [discriminate | reflexivity]].
  destruct (Py.format_2f price); cbn [fst snd Py.stocks]; split;
    try reflexivity; try discriminate.
Qed.

(** The same sell on two [int]s also credits the cash exactly. *)
Lemma py_sell_int_balance (p : Py.Portfolio) (ticker : string)
    (cash price quantity held : Z) :
  Py.balance p = Py.Int cash ->
  dict_lookup (Py.stocks p) ticker = Some held -> quantity <= held ->
  Py.balance (snd (Py.sell_stock p ticker (Py.Int price) quantity))
    = Py.Int (cash + price * quantity).
Proof.
  intros Hb Hl Hq. unfold Py.sell_stock, dict_contains, dict_item, dict_get.
  rewrite Hl, Hb. apply Z.leb_le in Hq. rewrite Hq.
  cbn [andb Py.num_mul Py.num_add Py.arith].
  destruct (Py.format_2f (Py.Int price)); reflexivity.
Qed.

End PyNumbers.



(** The test is made on the rounded product: with cash 0.03, three shares
    at 0.01 are bought, the float product [0.01 * 3] being equal to the
    float 0.03 although the numbers the two floats stand for are not. *)
Example buy_at_rounded_cost :
  fst (Py.buy_stock (Py.Portfolio_init (Py.literal 3 2)) "Stock 1"
         (Py.literal 1 2) 3)
    = Py.Returns "Bought 3 shares of Stock 1 at $0.01".
Proof. vm_compute. reflexivity. Qed.




Section SummaryText.

Lemma append_inj_l (s x y : string) : s ++ x = s ++ y -> x = y.
Proof.
  induction s as [|c s IH]; cbn; [auto|]. intros [= H]. auto.
Qed.












End SummaryText.





(** * Whole numbers as floats *)

Section WholeNumbers.

Lemma digits2_iter (m d : positive) :
  digits2_pos (Pos.iter xO m d) = (digits2_pos m + d)%positive.
Proof.
  revert m. induction d as [|d IH] using Pos.peano_ind; intro m.
  - cbn. lia.
  - rewrite Pos.iter_succ. cbn [digits2_pos]. rewrite IH. lia.
Qed.

Lemma digits2_lower (m : positive) : 2 ^ (Zpos (digits2_pos m) - 1) <= Zpos m.
Proof.
  induction m as [m IH | m IH |]; cbn [digits2_pos];
    rewrite ?Pos2Z.inj_succ; [| |cbn; lia];
    replace (Z.succ (Zpos (digits2_pos m)) - 1)
      with (Z.succ (Zpos (digits2_pos m) - 1)) by lia;
    rewrite Z.pow_succ_r by lia; lia.
Qed.

Lemma iter_xO_value (m d : positive) :
  Zpos (Pos.iter xO m d) = Zpos m * 2 ^ Zpos d.
Proof.
  change (Pos.iter xO m d) with (shift_pos d m).
  rewrite shift_pos_correct, Zpower_pos_nat, Zpower_nat_Z, positive_nat_Z.
  lia.
Qed.

(** An [int] below [2 ** 53] is converted to a float without rounding: the
    mantissa is the [int] shifted up to 53 bits. *)
Lemma binary_round_small (sx : bool) (mx : positive) :
  Zpos mx < 2 ^ 53 ->
  exists m e,
    binary_round Py.prec Py.emax sx mx 0 = S754_finite sx m e /\
    e <= 0 /\ Zpos m = Zpos mx * 2 ^ (- e).
Proof.
  intro Hm. pose proof (digits2_lower mx) as Hd.
  assert (Hd53 : Zpos (digits2_pos mx) <= 53).
  { destruct (Z.le_gt_cases (Zpos (digits2_pos mx)) 53) as [H|H]; [exact H|].
    exfalso. assert (2 ^ 53 <= 2 ^ (Zpos (digits2_pos mx) - 1))
      by (apply Z.pow_le_mono_r; lia). lia. }
  assert (Hf : forall d, 1 <= d -> fexp Py.prec Py.emax d = d - 53)
    by (intros d H; unfold fexp, emin, Py.prec, Py.emax; lia).
  unfold binary_round, shl_align.
  rewrite Z.add_0_r, Hf by lia. rewrite Z.sub_0_r.
  destruct (Zpos (digits2_pos mx) - 53) as [|k|k] eqn:Ek; [|lia|].
  - exists mx, 0. unfold binary_round_aux, shr_fexp.
    cbn [Zdigits2 shr_record_of_loc].
    rewrite Z.add_0_r, Hf, Z.sub_0_r, Ek by lia.
    cbn [shr round_nearest_even shr_m loc_of_shr_record Zdigits2].
    rewrite Z.add_0_r, Hf, Z.sub_0_r, Ek by lia.
    cbn [shr shr_m shr_record_of_loc].
    split_all; [reflexivity | lia | cbn; lia].
  - exists (Pos.iter xO mx k), (Zneg k).
    assert (Hdig : Zpos (digits2_pos (Pos.iter xO mx k)) + Zneg k
                   = Zpos (digits2_pos mx))
      by (rewrite digits2_iter; lia).
    unfold binary_round_aux, shr_fexp.
    cbn [Zdigits2 shr_record_of_loc]. rewrite Hdig, Hf, Ek, Z.sub_diag by lia.
    cbn [shr round_nearest_even shr_m loc_of_shr_record Zdigits2].
    rewrite Hdig, Hf, Ek, Z.sub_diag by lia.
    cbn [shr shr_m shr_record_of_loc].
    split_all; [reflexivity | lia |].
    rewrite iter_xO_value. reflexivity.
Qed.

(** A float whose value is a whole number is shown with two zero
    decimals. *)
Lemma format_float_whole (sx : bool) (m mx : positive) (e : Z) :
  e <= 0 -> Zpos m = Zpos mx * 2 ^ (- e) ->
  Py.format_float (S754_finite sx m e)
    = (if sx then "-" else "") ++ str_int (Zpos mx) ++ ".00".
Proof.
  intros He Hm. unfold Py.format_float.
  assert (Hn : match e with
               | Zneg k => round_half_even (Zpos m * 100) (2 ^ Zpos k)
               | _ => Zpos m * 2 ^ e * 100
               end = Zpos mx * 100).
  { destruct e as [|k|k]; [|lia|].
    - rewrite Hm. cbn [Z.opp]. rewrite Z.pow_0_r. lia.
    - cbn [Z.opp] in Hm. rewrite Hm. unfold round_half_even.
      assert (Hp : 0 < 2 ^ Zpos k) by (apply Z.pow_pos_nonneg; lia).
      replace (Zpos mx * 2 ^ Zpos k * 100)
        with (Zpos mx * 100 * 2 ^ Zpos k) by lia.
      rewrite Z.div_mul, Z.mod_mul by lia.
      destruct (Z.ltb_spec (2 * 0) (2 ^ Zpos k)); [reflexivity | lia]. }
  rewrite Hn, Z.div_mul, Z.mod_mul by lia. reflexivity.
Qed.

Lemma py_format_2f_whole (z : Z) :
  - 2 ^ 53 <= z <= 2 ^ 53 ->
  Py.format_2f (Py.Int z) = Some (str_int z ++ ".00").
Proof.
  intro Hz. unfold Py.format_2f, Py.as_float, Py.float_of_int.
  destruct z as [|p|p]; [reflexivity | |].
  - destruct (Z.eq_dec (Zpos p) (2 ^ 53)) as [E | E].
    + injection E as ->. vm_compute. reflexivity.
    + cbn [binary_normalize].
      destruct (binary_round_small false p) as (m & e & Er & He & Hm); [lia|].
      rewrite Er. cbn [option_map].
      now rewrite (format_float_whole false m p e He Hm).
  - destruct (Z.eq_dec (Zpos p) (2 ^ 53)) as [E | E].
    + injection E as ->. vm_compute. reflexivity.
    + cbn [binary_normalize].
      destruct (binary_round_small true p) as (m & e & Er & He & Hm); [lia|].
      rewrite Er. cbn [option_map].
      now rewrite (format_float_whole true m p e He Hm).
Qed.

End WholeNumbers.

(** X9. A whole amount that a float holds exactly is shown with two zero
    decimals: for every [int] [z] between [- 2 ** 53] and [2 ** 53],
    [f"{z:.2f}"] is the decimal writing of [z] followed by ".00". The
    [int] is converted to a float first, here without rounding, and the
    text is the one the exact number gives. *)
Theorem format_2f_of_int (z : Z) :
  - 2 ^ 53 <= z <= 2 ^ 53 ->
  Py.format_2f (Py.Int z) = Some (str_int z ++ ".00") /\
  Py.format_2f (Py.Int z) = Some (format_2f (of_int z)).
Proof.
  intro Hz. rewrite format_2f_whole. split; now apply py_format_2f_whole.
Qed.

Lemma format_2f_of_int_witness :
  - 2 ^ 53 <= -10030 <= 2 ^ 53 /\
  Py.format_2f (Py.Int (-10030)) = Some "-10030.00".
Proof.
  assert (H : - 2 ^ 53 <= -10030 <= 2 ^ 53) by lia.
  split; [exact H|].
  exact (proj1 (format_2f_of_int (-10030) H)).
Defined.

(** Beyond [2 ** 53] the conversion rounds: [2 ** 53 + 1] is shown as
    [2 ** 53], where the exact number would show its own digits. *)
Example format_2f_beyond_exact_ints :
  Py.format_2f (Py.Int (2 ^ 53 + 1)) = Some "9007199254740992.00" /\
  format_2f (of_int (2 ^ 53 + 1)) = "9007199254740993.00".
Proof. vm_compute. split; reflexivity. Qed.

(** * Agreement of the two ledgers on ints *)

(** The ledger on exact numbers and the ledger on Python's numbers do the
    same on [int] cash and [int] prices, where Python's arithmetic is
    exact: the same calls are refused, the calls leave the same holdings
    and the same cash, and for a price that a float holds exactly they
    return the same text. *)
Section IntAgreement.

Variables (cash price quantity : Z) (d : dict) (ticker : string).
Variables (h : list transaction) (h' : list Py.transaction).

Lemma of_int_mul (a b : Z) : of_int (a * b) = (of_int a * of_int b)%Qc.
Proof.
  apply Qc_is_canon. unfold of_int, Qcmult, Q2Qc. cbn [this].
  rewrite !Qred_correct, inject_Z_mult. reflexivity.
Qed.

Lemma num_leb_of_int (a b : Z) : num_leb (of_int a) (of_int b) = (a <=? b).
Proof.
  unfold num_leb, of_int, Q2Qc. cbn [this].
  rewrite !Qred_identity by (cbn; apply Z.gcd_1_r).
  unfold Qle_bool. cbn [Qnum Qden inject_Z]. now rewrite !Z.mul_1_r.
Qed.

Lemma buy_stock_on_ints :
  let exact := buy_stock (mkPortfolio (of_int cash) d h) ticker
                 (of_int price) quantity in
  let py := Py.buy_stock (Py.mkPortfolio (Py.Int cash) d h') ticker
              (Py.Int price) quantity in
  (fst exact = InsufficientFunds <-> fst py = Py.Returns InsufficientFunds) /\
  stocks (snd exact) = Py.stocks (snd py) /\
  (exists c, balance (snd exact) = of_int c /\ Py.balance (snd py) = Py.Int c) /\
  (- 2 ^ 53 <= price <= 2 ^ 53 -> fst py = Py.Returns (fst exact)).
Proof.
  cbv zeta. unfold buy_stock, Py.buy_stock. cbn [balance Py.balance].
  cbn [Py.num_mul Py.num_sub Py.arith].
  rewrite <- of_int_mul, num_leb_of_int, num_le_int.
  destruct (price * quantity <=? cash).
  - destruct (Py.format_2f (Py.Int price)) eqn:Ef;
      cbn [fst snd stocks Py.stocks];
      (split_all;
       [ split; intro E; [vm_compute in E|]; discriminate E
       | reflexivity
       | exists (cash - price * quantity); split; [|reflexivity];
         cbn [balance];
         replace (cash - price * quantity)
           with (cash + - (price * quantity)) by lia;
         now rewrite of_int_add, of_int_opp, of_int_mul
       | intro Hr; rewrite (py_format_2f_whole price Hr) in Ef;
         try discriminate Ef; injection Ef as <-;
         now rewrite format_2f_whole ]).
  - cbn [fst snd stocks Py.stocks balance Py.balance].
    split_all; [now split | reflexivity | now exists cash | reflexivity].
Qed.

Lemma sell_stock_on_ints :
  let exact := sell_stock (mkPortfolio (of_int cash) d h) ticker
                 (of_int price) quantity in
  let py := Py.sell_stock (Py.mkPortfolio (Py.Int cash) d h') ticker
              (Py.Int price) quantity in
  (fst exact = InsufficientShares
   <-> fst py = Py.Returns InsufficientShares) /\
  stocks (snd exact) = Py.stocks (snd py) /\
  (exists c, balance (snd exact) = of_int c /\ Py.balance (snd py) = Py.Int c) /\
  (- 2 ^ 53 <= price <= 2 ^ 53 -> fst py = Py.Returns (fst exact)).
Proof.
  cbv zeta. unfold sell_stock, Py.sell_stock.
  cbn [balance stocks Py.balance Py.stocks].
  cbn [Py.num_mul Py.num_add Py.arith].
  destruct (dict_contains d ticker && (quantity <=? dict_item d ticker)).
  - destruct (Py.format_2f (Py.Int price)) eqn:Ef;
      cbn [fst snd stocks Py.stocks];
      (split_all;
       [ split; intro E; [vm_compute in E|]; discriminate E
       | reflexivity
       | exists (cash + price * quantity); split; [|reflexivity];
         cbn [balance]; now rewrite of_int_add, of_int_mul
       | intro Hr; rewrite (py_format_2f_whole price Hr) in Ef;
         try discriminate Ef; injection Ef as <-;
         now rewrite format_2f_whole ]).
  - cbn [fst snd stocks Py.stocks balance Py.balance].
    split_all; [now split | reflexivity | now exists cash | reflexivity].
Qed.

End IntAgreement.


(** * Sequences of calls on Python's numbers *)

Section PyOrders.

(** The states a buy can leave: the one before, or the buy applied. *)
Lemma py_buy_cases (p : Py.Portfolio) (ticker : string) (price : Py.num)
    (quantity : Z) :
  snd (Py.buy_stock p ticker price quantity) = p \/
  exists new_balance,
    snd (Py.buy_stock p ticker price quantity)
      = Py.mkPortfolio new_balance
          (dict_set (Py.stocks p) ticker (Py.holdings p ticker + quantity))
          (Py.transaction_history p ++ [(ticker, Buy, quantity, price)]).
Proof.
  unfold Py.buy_stock.
  destruct (Py.num_mul price (Py.Int quantity)) as [tc|]; [|now left].
  destruct (Py.num_le tc (Py.balance p)); [|now left].
  destruct (Py.num_sub (Py.balance p) tc) as [nb|]; [|now left].
  right. exists nb. now destruct (Py.format_2f price).
Qed.

(** The states a sell can leave: the one before; the shares debited and
    nothing else, when the line that credits the cash raises; or the sell
    applied. *)
Lemma py_sell_cases (p : Py.Portfolio) (ticker : string) (price : Py.num)
    (quantity : Z) :
  snd (Py.sell_stock p ticker price quantity) = p \/
  (dict_contains (Py.stocks p) ticker = true /\
   quantity <= Py.holdings p ticker /\
   ((fst (Py.sell_stock p ticker price quantity) = Py.Raises_OverflowError /\
     snd (Py.sell_stock p ticker price quantity)
       = Py.mkPortfolio (Py.balance p)
           (dict_set (Py.stocks p) ticker (Py.holdings p ticker - quantity))
           (Py.transaction_history p)) \/
    exists new_balance,
      snd (Py.sell_stock p ticker price quantity)
        = Py.mkPortfolio new_balance
            (dict_set (Py.stocks p) ticker (Py.holdings p ticker - quantity))
            (Py.transaction_history p
               ++ [(ticker, Sell, quantity, price)]))).
Proof.
  unfold Py.sell_stock, Py.holdings, dict_item.
  destruct (dict_contains (Py.stocks p) ticker) eqn:Ec; [|now left].
  destruct (Z.leb_spec quantity (dict_get (Py.stocks p) ticker 0)) as [Hq|Hq];
    [|now left].
  cbn [andb]. right. split_all; [reflexivity | exact Hq |].
  destruct (Py.num_mul price (Py.Int quantity)) as [proceeds|];
    [|left; now split].
  destruct (Py.num_add (Py.balance p) proceeds) as [nb|]; [|left; now split].
  right. exists nb. now destruct (Py.format_2f price).
Qed.

Lemma py_history_shares_app (ticker : string) (h1 h2 : list Py.transaction) :
  Py.history_shares ticker (h1 ++ h2)
    = Py.history_shares ticker h1 + Py.history_shares ticker h2.
Proof.
  induction h1 as [|t h1 IH]; cbn [app Py.history_shares]; [reflexivity|].
  rewrite IH. lia.
Qed.

(** Holdings after a write, for the written ticker and for the others, in
    terms of what one record adds to the history. *)
Lemma py_holdings_record (b : Py.num) (d : dict) (h : list Py.transaction)
    (ticker t : string) (change : Z) :
  Py.holdings (Py.mkPortfolio b (dict_set d ticker (dict_get d ticker 0 + change)) h) t
    = dict_get d t 0 + (if String.eqb ticker t then change else 0).
Proof.
  unfold Py.holdings. cbn [Py.stocks].
  destruct (String.eqb ticker t) eqn:Et.
  - apply String.eqb_eq in Et. subst t. apply holdings_set_same.
  - apply String.eqb_neq in Et.
    rewrite holdings_set_other by congruence. lia.
Qed.

(** One call that returns keeps the share counts in step with the
    history. *)
Lemma py_place_order_audit (p : Py.Portfolio) (o : Py.order) :
  Py.returned (fst (Py.place_order p o)) = true ->
  (forall t, Py.holdings p t = Py.history_shares t (Py.transaction_history p)) ->
  forall t,
    Py.holdings (snd (Py.place_order p o)) t
      = Py.history_shares t (Py.transaction_history (snd (Py.place_order p o))).
Proof.
  intros Hr Hs t.
  destruct o as [tk pr q | tk pr q]; cbn [Py.place_order] in *.
  - destruct (py_buy_cases p tk pr q) as [E | [nb E]]; rewrite E; [apply Hs|].
    cbn [Py.transaction_history]. unfold Py.holdings at 2.
    rewrite py_holdings_record, py_history_shares_app, <- Hs.
    cbn [Py.history_shares Py.share_effect]. unfold Py.holdings. lia.
  - destruct (py_sell_cases p tk pr q)
      as [E | (_ & _ & [[Ef _] | [nb E]])].
    + rewrite E. apply Hs.
    + rewrite Ef in Hr. discriminate Hr.
    + rewrite E. cbn [Py.transaction_history]. unfold Py.holdings at 2.
      replace (dict_get (Py.stocks p) tk 0 - q)
        with (dict_get (Py.stocks p) tk 0 + - q) by lia.
      rewrite py_holdings_record, py_history_shares_app, <- Hs.
      cbn [Py.history_shares Py.share_effect]. unfold Py.holdings.
      destruct (String.eqb tk t); lia.
Qed.

Lemma py_place_order_nonneg (p : Py.Portfolio) (o : Py.order) :
  0 < Py.quantity_of o ->
  Forall (fun kv => 0 <= snd kv) (Py.stocks p) ->
  Forall (fun kv => 0 <= snd kv) (Py.stocks (snd (Py.place_order p o))).
Proof.
  intros Hq Hs. pose proof (fun k => dict_get_nonneg _ k Hs) as Hh.
  destruct o as [tk pr q | tk pr q]; cbn [Py.place_order Py.quantity_of] in *.
  - destruct (py_buy_cases p tk pr q) as [E | [nb E]]; rewrite E;
      [exact Hs|].
    cbn [Py.stocks]. apply dict_set_Forall; [|exact Hs].
    intros k0. cbn [snd]. specialize (Hh tk). unfold Py.holdings. lia.
  - destruct (py_sell_cases p tk pr q)
      as [E | (_ & Hle & [[_ E] | [nb E]])]; rewrite E; [exact Hs| |];
      cbn [Py.stocks]; (apply dict_set_Forall; [|exact Hs]);
      intros k0; cbn [snd]; lia.
Qed.

End PyOrders.

(** X2. On [int] cash and an [int] price, trading at a price never changes
    the value of the portfolio marked at that price: cash plus price times
    the shares held of the traded ticker is the same [int] before and after
    a buy, and before and after a sell, whatever the quantity and whether
    the call succeeds, is refused or raises while formatting its message.
    (On floats the two sides can differ by rounding.) *)
Theorem int_marked_value_conserved (p : Py.Portfolio) (ticker : string)
    (cash price quantity : Z) :
  Py.balance p = Py.Int cash ->
  (exists cash',
     Py.balance (snd (Py.buy_stock p ticker (Py.Int price) quantity))
       = Py.Int cash' /\
     cash' + price * Py.holdings
                       (snd (Py.buy_stock p ticker (Py.Int price) quantity))
                       ticker
       = cash + price * Py.holdings p ticker) /\
  (exists cash',
     Py.balance (snd (Py.sell_stock p ticker (Py.Int price) quantity))
       = Py.Int cash' /\
     cash' + price * Py.holdings
                       (snd (Py.sell_stock p ticker (Py.Int price) quantity))
                       ticker
       = cash + price * Py.holdings p ticker).
Proof.
  intro Hb. split.
  - unfold Py.buy_stock. rewrite Hb.
    cbn [Py.num_mul Py.num_sub Py.arith]. rewrite num_le_int.
    destruct (price * quantity <=? cash);
      [|exists cash; cbn [snd]; now rewrite Hb].
    exists (cash - price * quantity).
    destruct (Py.format_2f (Py.Int price)); cbn [snd Py.balance];
      (split; [reflexivity|]); unfold Py.holdings at 1; cbn [Py.stocks];
      rewrite holdings_set_same; unfold Py.holdings; lia.
  - unfold Py.sell_stock, dict_item. rewrite Hb.
    destruct (dict_contains (Py.stocks p) ticker
              && (quantity <=? dict_get (Py.stocks p) ticker 0));
      [|exists cash; cbn [snd]; now rewrite Hb].
    cbn [Py.num_mul Py.num_add Py.arith].
    exists (cash + price * quantity).
    destruct (Py.format_2f (Py.Int price)); cbn [snd Py.balance];
      (split; [reflexivity|]); unfold Py.holdings at 1; cbn [Py.stocks];
      rewrite holdings_set_same; unfold Py.holdings; lia.
Qed.

Lemma int_marked_value_conserved_witness :
  Py.balance (Py.mkPortfolio (Py.Int 1000) [("Stock 1", 2)] [])
    = Py.Int 1000 /\
  exists cash',
    Py.balance (snd (Py.buy_stock
                       (Py.mkPortfolio (Py.Int 1000) [("Stock 1", 2)] [])
                       "Stock 1" (Py.Int 100) 3)) = Py.Int cash' /\
    cash' + 100 * Py.holdings
                    (snd (Py.buy_stock
                            (Py.mkPortfolio (Py.Int 1000) [("Stock 1", 2)] [])
                            "Stock 1" (Py.Int 100) 3)) "Stock 1"
      = 1000 + 100 * Py.holdings
                       (Py.mkPortfolio (Py.Int 1000) [("Stock 1", 2)] [])
                       "Stock 1".
Proof.
  assert (Hb : Py.balance (Py.mkPortfolio (Py.Int 1000) [("Stock 1", 2)] [])
               = Py.Int 1000) by reflexivity.
  split; [exact Hb|].
  exact (proj1 (int_marked_value_conserved _ "Stock 1" 1000 100 3 Hb)).
Defined.

(** X3. No share count goes below zero: a portfolio whose share counts are
    all at least zero keeps them so after any sequence of buys and sells of
    positive quantities, at any prices, [int] or float, also when a call
    raises and the caller goes on. (The same does not hold of the cash: see
    [cash_can_become_nan].) *)
Theorem orders_keep_holdings_nonnegative (p : Py.Portfolio)
    (os : list Py.order) :
  Forall (fun kv => 0 <= snd kv) (Py.stocks p) ->
  Forall (fun o => 0 < Py.quantity_of o) os ->
  Forall (fun kv => 0 <= snd kv) (Py.stocks (snd (Py.place_orders p os))).
Proof.
  intros Hs Hv. revert p Hs.
  induction Hv as [|o os Ho _ IH]; intros p Hs; cbn [Py.place_orders];
    [exact Hs|].
  pose proof (py_place_order_nonneg p o Ho Hs) as H1.
  destruct (Py.place_order p o) as [r p'].
  specialize (IH p' H1).
  destruct (Py.place_orders p' os) as [rs p'']. exact IH.
Qed.

Lemma orders_keep_holdings_nonnegative_witness :
  Forall (fun kv => 0 <= snd kv) (Py.stocks (Py.Portfolio_init (Py.Int 250))) /\
  Forall (fun o => 0 < Py.quantity_of o)
    [Py.BuyOrder "Stock 1" (Py.Int 100) 2;
     Py.SellOrder "Stock 1" (Py.literal 905 1) 3;
     Py.SellOrder "Stock 1" (Py.literal 905 1) 2] /\
  Forall (fun kv => 0 <= snd kv)
    (Py.stocks (snd (Py.place_orders (Py.Portfolio_init (Py.Int 250))
       [Py.BuyOrder "Stock 1" (Py.Int 100) 2;
        Py.SellOrder "Stock 1" (Py.literal 905 1) 3;
        Py.SellOrder "Stock 1" (Py.literal 905 1) 2]))).
Proof.
  assert (Hs : Forall (fun kv => 0 <= snd kv)
                 (Py.stocks (Py.Portfolio_init (Py.Int 250))))
    by constructor.
  assert (Hv : Forall (fun o => 0 < Py.quantity_of o)
    [Py.BuyOrder "Stock 1" (Py.Int 100) 2;
     Py.SellOrder "Stock 1" (Py.literal 905 1) 3;
     Py.SellOrder "Stock 1" (Py.literal 905 1) 2])
    by (repeat constructor).
  split_all; [exact Hs | exact Hv |].
  exact (orders_keep_holdings_nonnegative _ _ Hs Hv).
Defined.

(** The cash has no such invariant on floats: from cash 10, buying 10
    shares at 1, selling them at 1e308 and buying 10 at 1e308 are three
    accepted calls with positive quantities and prices, and they leave the
    cash at infinity and then at NaN. *)
Example cash_can_become_nan :
  let os := [Py.BuyOrder "Stock 1" (Py.Int 1) 10;
             Py.SellOrder "Stock 1" (Py.literal (10 ^ 308) 0) 10;
             Py.BuyOrder "Stock 1" (Py.literal (10 ^ 308) 0) 10] in
  Py.balance (snd (Py.place_orders (Py.Portfolio_init (Py.Int 10))
                     (firstn 2 os)))
    = Py.Float (S754_infinity false) /\
  Py.balance (snd (Py.place_orders (Py.Portfolio_init (Py.Int 10)) os))
    = Py.Float S754_nan /\
  Forall (fun r => Py.returned r = true)
    (fst (Py.place_orders (Py.Portfolio_init (Py.Int 10)) os)).
Proof.
  vm_compute. split_all; try reflexivity. repeat constructor.
Qed.

(** X4. The history is an audit trail of the share counts. After any
    sequence of buys and sells on a fresh portfolio, with any arguments, in
    which no call raised, the share count of every ticker is the recorded
    quantity bought minus the recorded quantity sold. (A sell that raises
    while crediting the cash has debited the shares and recorded nothing:
    see [raising_sell_is_not_recorded].) *)
Theorem history_records_shares (initial_balance : Py.num)
    (os : list Py.order) (ticker : string) :
  Forall (fun r => Py.returned r = true)
    (fst (Py.place_orders (Py.Portfolio_init initial_balance) os)) ->
  Py.holdings (snd (Py.place_orders (Py.Portfolio_init initial_balance) os))
      ticker
    = Py.history_shares ticker
        (Py.transaction_history
           (snd (Py.place_orders (Py.Portfolio_init initial_balance) os))).
Proof.
  assert (G : forall os p,
    (forall t, Py.holdings p t
               = Py.history_shares t (Py.transaction_history p)) ->
    Forall (fun r => Py.returned r = true) (fst (Py.place_orders p os)) ->
    forall t, Py.holdings (snd (Py.place_orders p os)) t
              = Py.history_shares t
                  (Py.transaction_history (snd (Py.place_orders p os)))).
  { clear os. induction os as [|o os IH]; intros p Hs Hr; cbn [Py.place_orders];
      [exact Hs|].
    cbn [Py.place_orders] in Hr.
    pose proof (py_place_order_audit p o) as H1.
    destruct (Py.place_order p o) as [r p']. cbn [fst snd] in H1.
    specialize (IH p').
    destruct (Py.place_orders p' os) as [rs p'']. cbn [fst snd] in *.
    inversion Hr as [|? ? Hr1 Hr2]; subst.
    apply IH; [apply H1; [exact Hr1 | exact Hs] | exact Hr2]. }
  intro Hr. apply G; [|exact Hr]. intro t. reflexivity.
Qed.

Lemma history_records_shares_witness :
  Forall (fun r => Py.returned r = true)
    (fst (Py.place_orders (Py.Portfolio_init (Py.Int 250))
            [Py.BuyOrder "Stock 1" (Py.Int 100) 2;
             Py.SellOrder "Stock 1" (Py.literal 905 1) 1;
             Py.SellOrder "Stock 2" (Py.literal 905 1) 2])) /\
  Py.holdings
    (snd (Py.place_orders (Py.Portfolio_init (Py.Int 250))
            [Py.BuyOrder "Stock 1" (Py.Int 100) 2;
             Py.SellOrder "Stock 1" (Py.literal 905 1) 1;
             Py.SellOrder "Stock 2" (Py.literal 905 1) 2])) "Stock 1"
    = Py.history_shares "Stock 1"
        (Py.transaction_history
           (snd (Py.place_orders (Py.Portfolio_init (Py.Int 250))
                   [Py.BuyOrder "Stock 1" (Py.Int 100) 2;
                    Py.SellOrder "Stock 1" (Py.literal 905 1) 1;
                    Py.SellOrder "Stock 2" (Py.literal 905 1) 2]))).
Proof.
  assert (Hr : Forall (fun r => Py.returned r = true)
    (fst (Py.place_orders (Py.Portfolio_init (Py.Int 250))
            [Py.BuyOrder "Stock 1" (Py.Int 100) 2;
             Py.SellOrder "Stock 1" (Py.literal 905 1) 1;
             Py.SellOrder "Stock 2" (Py.literal 905 1) 2])))
    by (vm_compute; repeat constructor).
  split; [exact Hr|].
  exact (history_records_shares (Py.Int 250) _ "Stock 1" Hr).
Defined.

(** A sell of [2 ** 1024] shares at the float price 1.0 passes the test on
    the holdings and debits them, then [price * quantity] raises
    [OverflowError]: the shares are gone and the history does not say so. *)
Example raising_sell_is_not_recorded :
  let p := Py.mkPortfolio (Py.Int 0) [("Stock 1", 2 ^ 1024)]
             [("Stock 1", Buy, 2 ^ 1024, Py.Int 0)] in
  let sold := Py.sell_stock p "Stock 1" (Py.literal 1 0) (2 ^ 1024) in
  fst sold = Py.Raises_OverflowError /\
  Py.holdings (snd sold) "Stock 1" = 0 /\
  Py.transaction_history (snd sold) = Py.transaction_history p /\
  Py.balance (snd sold) = Py.balance p.
Proof.
  vm_compute. split_all; reflexivity.
Qed.

(** X5. The sign of the quantity is not checked. On [int] cash that is not
    negative and a positive [int] price, a buy of a negative quantity is
    accepted: it raises the cash and lowers the share count; and a sell of
    a negative quantity of a ticker present in the holdings with a share
    count that is not negative is accepted: it lowers the cash, with no
    test against zero, and raises the share count. (On floats the change of
    the cash can be absorbed by rounding.) *)
Theorem int_negative_quantity_not_rejected (p : Py.Portfolio)
    (ticker : string) (cash price quantity : Z) :
  Py.balance p = Py.Int cash -> 0 <= cash -> 0 <= Py.holdings p ticker ->
  quantity < 0 -> 0 < price ->
  (let b := Py.buy_stock p ticker (Py.Int price) quantity in
   fst b <> Py.Returns InsufficientFunds /\
   Py.balance (snd b) = Py.Int (cash - price * quantity) /\
   cash < cash - price * quantity /\
   Py.holdings (snd b) ticker = Py.holdings p ticker + quantity) /\
  (dict_contains (Py.stocks p) ticker = true ->
   let s := Py.sell_stock p ticker (Py.Int price) quantity in
   fst s <> Py.Returns InsufficientShares /\
   Py.balance (snd s) = Py.Int (cash + price * quantity) /\
   cash + price * quantity < cash /\
   Py.holdings (snd s) ticker = Py.holdings p ticker - quantity).
Proof.
  intros Hb Hc Hh Hq Hp.
  assert (Hneg : price * quantity < 0) by nia.
  split.
  - assert (Hl : Py.num_le (Py.Int (price * quantity)) (Py.balance p) = true)
      by (rewrite Hb, num_le_int; apply Z.leb_le; lia).
    assert (Hs : Py.num_sub (Py.balance p) (Py.Int (price * quantity))
                 = Some (Py.Int (cash - price * quantity)))
      by (now rewrite Hb).
    destruct (py_buy_applied p ticker (Py.Int price) quantity _ _
                eq_refl Hl Hs) as [Hr E].
    cbv zeta. rewrite E. cbn [Py.balance].
    split_all; [exact Hr | reflexivity | lia |].
    unfold Py.holdings at 1. cbn [Py.stocks]. apply holdings_set_same.
  - intro Hin. unfold dict_contains in Hin.
    destruct (dict_lookup (Py.stocks p) ticker) as [held|] eqn:El;
      [|discriminate Hin].
    assert (Eh : Py.holdings p ticker = held)
      by (unfold Py.holdings, dict_get; now rewrite El).
    assert (Hle : quantity <= held) by lia.
    destruct (py_sell_debits p ticker (Py.Int price) quantity held El Hle)
      as [Hr Est].
    cbv zeta.
    split_all; [exact Hr | now apply py_sell_int_balance with (held := held)
               | lia |].
    unfold Py.holdings at 1. rewrite Est, Eh. apply holdings_set_same.
Qed.

Lemma int_negative_quantity_not_rejected_witness :
  Py.balance (Py.mkPortfolio (Py.Int 50) [("Stock 1", 1)] []) = Py.Int 50 /\
  0 <= 50 /\
  0 <= Py.holdings (Py.mkPortfolio (Py.Int 50) [("Stock 1", 1)] []) "Stock 1" /\
  -3 < 0 /\ 0 < 50 /\
  Py.balance (snd (Py.sell_stock
                     (Py.mkPortfolio (Py.Int 50) [("Stock 1", 1)] [])
                     "Stock 1" (Py.Int 50) (-3)))
    = Py.Int (50 + 50 * -3).
Proof.
  assert (Hb : Py.balance (Py.mkPortfolio (Py.Int 50) [("Stock 1", 1)] [])
               = Py.Int 50) by reflexivity.
  assert (Hc : 0 <= 50) by lia.
  assert (Hh : 0 <= Py.holdings
                      (Py.mkPortfolio (Py.Int 50) [("Stock 1", 1)] [])
                      "Stock 1") by (cbn; lia).
  assert (Hq : -3 < 0) by lia.
  assert (Hp : 0 < 50) by lia.
  split_all; [exact Hb | exact Hc | exact Hh | exact Hq | exact Hp |].
  exact (proj1 (proj2 (proj2 (int_negative_quantity_not_rejected _ "Stock 1"
                                 50 50 (-3) Hb Hc Hh Hq Hp) eq_refl))).
Defined.

(** X8. A buy that succeeds followed by a sell of the same quantity of the
    same ticker at the same price, from a portfolio in which the share count
    of that ticker is not negative, leaves the list of holdings that the
    summary shows as it was: a ticker that enters the holdings with zero
    shares is not shown. When the cash and the price are [int]s the whole
    summary is as it was. (On floats the balance shown can change in its
    last digit.) *)
Theorem round_trip_summary_holdings (p : Py.Portfolio) (ticker : string)
    (n : Z) :
  0 <= Py.holdings p ticker ->
  (forall (price total_cost new_balance : Py.num),
     Py.num_mul price (Py.Int n) = Some total_cost ->
     Py.num_le total_cost (Py.balance p) = true ->
     Py.num_sub (Py.balance p) total_cost = Some new_balance ->
     Py.stock_summary
       (snd (Py.sell_stock (snd (Py.buy_stock p ticker price n))
               ticker price n))
       = Py.stock_summary p) /\
  (forall (cash price : Z),
     Py.balance p = Py.Int cash -> price * n <= cash ->
     Py.summary
       (snd (Py.sell_stock (snd (Py.buy_stock p ticker (Py.Int price) n))
               ticker (Py.Int price) n))
       = Py.summary p).
Proof.
  intro Hh.
  assert (G : forall price total_cost new_balance,
    Py.num_mul price (Py.Int n) = Some total_cost ->
    Py.num_le total_cost (Py.balance p) = true ->
    Py.num_sub (Py.balance p) total_cost = Some new_balance ->
    Py.stock_summary
      (snd (Py.sell_stock (snd (Py.buy_stock p ticker price n)) ticker price n))
      = Py.stock_summary p /\
    dict_lookup (Py.stocks (snd (Py.buy_stock p ticker price n))) ticker
      = Some (Py.holdings p ticker + n) /\
    Py.balance (snd (Py.buy_stock p ticker price n)) = new_balance).
  { intros price tc nb Hm Hl Hs.
    destruct (py_buy_applied p ticker price n tc nb Hm Hl Hs) as [_ Eb].
    assert (Hlk : dict_lookup (Py.stocks (snd (Py.buy_stock p ticker price n)))
                    ticker = Some (Py.holdings p ticker + n))
      by (rewrite Eb; apply dict_lookup_set_same).
    destruct (py_sell_debits (snd (Py.buy_stock p ticker price n)) ticker price
                n (Py.holdings p ticker + n) Hlk) as [_ Est]; [lia|].
    split_all; [| exact Hlk | now rewrite Eb].
    unfold Py.stock_summary, Py.listed. rewrite Est, Eb. cbn [Py.stocks].
    rewrite dict_set_twice.
    replace (Py.holdings p ticker + n - n)
      with (dict_get (Py.stocks p) ticker 0) by (unfold Py.holdings; lia).
    now rewrite filter_positive_set_get. }
  split.
  - intros price tc nb Hm Hl Hs. exact (proj1 (G price tc nb Hm Hl Hs)).
  - intros cash price Hb Hc.
    assert (Hl : Py.num_le (Py.Int (price * n)) (Py.balance p) = true)
      by (rewrite Hb, num_le_int; now apply Z.leb_le).
    assert (Hs : Py.num_sub (Py.balance p) (Py.Int (price * n))
                 = Some (Py.Int (cash - price * n)))
      by (now rewrite Hb).
    destruct (G (Py.Int price) _ _ eq_refl Hl Hs) as (H1 & Hlk & Hnb).
    unfold Py.summary. rewrite H1.
    rewrite (py_sell_int_balance _ ticker (cash - price * n) price n
               (Py.holdings p ticker + n) Hnb Hlk) by lia.
    rewrite Hb. replace (cash - price * n + price * n) with cash by lia.
    reflexivity.
Qed.

Lemma round_trip_summary_holdings_witness :
  0 <= Py.holdings (Py.Portfolio_init (Py.Int 10000)) "Stock 1" /\
  Py.balance (Py.Portfolio_init (Py.Int 10000)) = Py.Int 10000 /\
  100 * 3 <= 10000 /\
  Py.summary
    (snd (Py.sell_stock
            (snd (Py.buy_stock (Py.Portfolio_init (Py.Int 10000)) "Stock 1"
                    (Py.Int 100) 3))
            "Stock 1" (Py.Int 100) 3))
    = Py.summary (Py.Portfolio_init (Py.Int 10000)).
Proof.
  assert (Hh : 0 <= Py.holdings (Py.Portfolio_init (Py.Int 10000)) "Stock 1")
    by (cbn; lia).
  assert (Hb : Py.balance (Py.Portfolio_init (Py.Int 10000)) = Py.Int 10000)
    by reflexivity.
  assert (Hc : 100 * 3 <= 10000) by lia.
  split_all; [exact Hh | exact Hb | exact Hc |].
  exact (proj2 (round_trip_summary_holdings (Py.Portfolio_init (Py.Int 10000))
                  "Stock 1" 3 Hh) 10000 100 Hb Hc).
Defined.


(** * The generator and the two random generators *)

Section FixedDraws.

Variables (u z : Qc).






End FixedDraws.

Section TwoGenerators.




End TwoGenerators.



